(** * AIMe dashboard: fetching, normalising, ranking and digesting scan records

    A shallow embedding of the helpers and of the data blocks of [src/app.py]:
    [fetch_json], [to_df], [human_int], the construction of [df_all] and the
    "Send to Telegram" block.

    - JSON values are Python values ([pyval]); a raw record is a dictionary
      from keys to values ([gmap string pyval]); strings are byte strings
      (UTF-8), so the Greek capital delta of the digest line is two bytes.
    - Python floats are the kernel's binary64 numbers; their printing
      ([float_repr], the [.1f] format, [int(x)]) is computed from the exact
      value of the float.
    - A [DataFrame] is the list of its rows, every row carrying the eleven
      columns of [to_df];  a column is the list of its cells.
    - Python exceptions are the [Raise] results of the [result] type, and
      [try ... except Exception] is [try_except].
    - The network and the file system are an explicit [world].
    - Three library behaviours are kept abstract in the class [Runtime]: the
      reading of a string cell by [pd.to_numeric], the reading of a string by
      [float()], and the printing of lists and dictionaries by [str()]. *)

From Stdlib Require Import ZArith String Ascii List Floats Lia.
From stdpp Require Import base option list gmap strings pretty sorting.

#[local] Set Warnings "-register-all,-inexact-float".
#[local] Open Scope Z_scope.

(** ** Python values *)

Module Py.

Inductive pyval :=
| PyNone
| PyBool (b : bool)
| PyInt (z : Z)
| PyFloat (f : float)
| PyStr (s : string)
| PyList (l : list pyval)
| PyDict (d : gmap string pyval).

(** The exceptions the code can meet. *)
Inductive exn :=
| TypeError | ValueError | AttributeError | OverflowError
| OSError | ConnectionError | JSONDecodeError.

Inductive result (A : Type) :=
| Ok (a : A)
| Raise (e : exn).
Arguments Ok {A} a.
Arguments Raise {A} e.

(** Sequencing: an exception ends the computation. *)
#[global] Instance result_bind : MBind result := λ A B k m,
  match m with
  | Ok a => k a
  | Raise e => Raise e
  end.

(** [try: body except Exception: handler]. *)
Definition try_except {A} (body : result A) (handler : exn → result A) : result A :=
  match body with
  | Ok a => Ok a
  | Raise e => handler e
  end.

(** [for x in xs: ys.append(f x)], stopping at the first exception. *)
Fixpoint for_each {A B} (f : A → result B) (xs : list A) : result (list B) :=
  match xs with
  | [] => Ok []
  | x :: xs' => y ← f x; ys ← for_each f xs'; Ok (y :: ys)
  end.

(** Numbers as [pd.to_numeric] tells them apart. *)
Inductive num :=
| NInt (z : Z)
| NFloat (f : float).

(** Truth value testing: [None], [False], zero, and empty strings and
    containers are false; NaN is true. *)
Definition truthy (v : pyval) : bool :=
  match v with
  | PyNone => false
  | PyBool b => b
  | PyInt z => negb (z =? 0)
  | PyFloat f => negb (PrimFloat.eqb f 0)
  | PyStr s => negb (String.eqb s "")
  | PyList l => match l with [] => false | _ => true end
  | PyDict d => negb (bool_decide (size d = 0%nat))
  end.

(** [a or b]. *)
Definition py_or (a b : pyval) : pyval := if truthy a then a else b.

(** [r.get(k)] on a dictionary. *)
Definition get (r : gmap string pyval) (k : string) : pyval :=
  default PyNone (r !! k).

(** *** Strings *)

Definition nl : string := String "010" "".

Definition lower_ascii (c : ascii) : ascii :=
  let n := nat_of_ascii c in
  if ((65 <=? n) && (n <=? 90))%nat then ascii_of_nat (n + 32) else c.

Fixpoint lower (s : string) : string :=
  match s with
  | EmptyString => EmptyString
  | String c s' => String (lower_ascii c) (lower s')
  end.

Definition startswith (s p : string) : bool := String.prefix p s.

(** ["sep".join(l)]. *)
Definition join (sep : string) (l : list string) : string := String.concat sep l.

(** *** Floats: exact value, conversion and printing *)

Definition digits (z : Z) : string := pretty (Z.to_N z).
Definition zeros (n : Z) : string := String.concat "" (repeat "0"%string (Z.to_nat n)).
Definition str_take (n : Z) (s : string) : string := substring 0 (Z.to_nat n) s.
Definition str_drop (n : Z) (s : string) : string :=
  substring (Z.to_nat n) (String.length s - Z.to_nat n) s.

(** [a / b] rounded to the nearest integer, ties to even ([0 <= a], [0 < b]). *)
Definition round_half_even (a b : Z) : Z :=
  let q := a / b in
  let r := a mod b in
  match 2 * r ?= b with
  | Lt => q
  | Gt => q + 1
  | Eq => if Z.even q then q else q + 1
  end.

(** The magnitude [m * 2^e] of a finite float as a fraction. *)
Definition magnitude (m : positive) (e : Z) : Z * Z :=
  if 0 <=? e then (Zpos m * 2 ^ e, 1) else (Zpos m, 2 ^ (- e)).

(** [float(z)] for an integer: round to nearest, ties to even. *)
Definition Z_to_float (z : Z) : float := SF2Prim (binary_normalize prec emax z 0 false).

(** [f"{x:.1f}"]. *)
Definition format_1f (x : float) : string :=
  match Prim2SF x with
  | S754_nan => "nan"
  | S754_infinity s => if s then "-inf" else "inf"
  | S754_zero s => if s then "-0.0" else "0.0"
  | S754_finite s m e =>
      let '(a, b) := magnitude m e in
      let t := round_half_even (10 * a) b in
      (if s then "-" else "") +:+ digits (t / 10) +:+ "." +:+ digits (t mod 10)
  end.

(** [int(x)] for a float: truncation towards zero; NaN and the infinities
    have no integer. *)
Definition float_to_int (x : float) : result Z :=
  match Prim2SF x with
  | S754_nan => Raise ValueError
  | S754_infinity _ => Raise OverflowError
  | S754_zero _ => Ok 0
  | S754_finite s m e =>
      let '(a, b) := magnitude m e in
      Ok (if s then - (a / b) else a / b)
  end.

(** The shortest decimal that reads back as the float [m * 2^e]: its digits
    and the position of its decimal point. *)
Section shortest.
Variables (m : positive) (e : Z).

Let mz := Zpos m.
  (* the gap below a power of two is half the gap above it *)
Let boundary := (mz =? 2 ^ 52) && (-1074 <? e).
  (* everything is counted in quarters of the unit in the last place *)
Let eb := e - 2.
Let up := if 0 <=? eb then 2 ^ eb else 1.
Let dn := if 0 <=? eb then 1 else 2 ^ (- eb).
Let V := 4 * mz * up.
Let HI := (4 * mz + 2) * up.
Let LO := (4 * mz - (if boundary then 1 else 2)) * up.
Let closed := Z.even mz.

  (** [10^t <= V / dn] *)
Definition pow10_le (t : Z) : bool :=
    if 0 <=? t then 10 ^ t * dn <=? V else dn <=? V * 10 ^ (- t).

Definition log10_floor : Z :=
    let t0 := (Z.log2 mz + e) * 30103 / 100000 in
    if pow10_le (t0 + 2) then t0 + 2
    else if pow10_le (t0 + 1) then t0 + 1
    else if pow10_le t0 then t0
    else if pow10_le (t0 - 1) then t0 - 1 else t0 - 2.

  (** [c * B] lies in the interval of the reals that round to the float. *)
Definition inside (c B lo hi : Z) : bool :=
    if closed then (lo <=? c * B) && (c * B <=? hi)
    else (lo <? c * B) && (c * B <? hi).

  (** The [n]-digit decimal [c * 10^k] nearest to the float, when it reads
      back as the float. *)
Definition candidate (n : Z) : option (Z * Z) :=
    let k := log10_floor - n + 1 in
    let sc := 10 ^ (Z.max 0 (- k)) in
    let B := dn * 10 ^ (Z.max 0 k) in
    let A := V * sc in
    let lo := LO * sc in
    let hi := HI * sc in
    let c1 := A / B in
    let c2 := c1 + 1 in
    let ok1 := inside c1 B lo hi in
    let ok2 := inside c2 B lo hi in
    if ok1 && ok2 then
      Some (match A - c1 * B ?= c2 * B - A with
            | Lt => c1
            | Gt => c2
            | Eq => if Z.even c1 then c1 else c2
            end, k)
    else if ok1 then Some (c1, k)
    else if ok2 then Some (c2, k)
    else None.

Fixpoint search (fuel : nat) (n : Z) : Z * Z :=
    match fuel with
    | O => (0, 0)
    | S fuel' =>
        match candidate n with
        | Some ck => ck
        | None => search fuel' (n + 1)
        end
    end.

Fixpoint strip (fuel : nat) (c k : Z) : Z * Z :=
    match fuel with
    | O => (c, k)
    | S fuel' =>
        if (c mod 10 =? 0) && negb (c =? 0) then strip fuel' (c / 10) (k + 1)
        else (c, k)
    end.

  (** Seventeen significant digits always suffice for a binary64 float. *)
Definition shortest_digits : string * Z :=
    let '(c, k) := search 17 1 in
    let '(c, k) := strip 20 c k in
    let ds := digits c in
    (ds, k + Z.of_nat (String.length ds)).
End shortest.

(** [repr(x)] and [str(x)] of a float. *)
Definition float_repr (x : float) : string :=
  match Prim2SF x with
  | S754_nan => "nan"
  | S754_infinity s => if s then "-inf" else "inf"
  | S754_zero s => if s then "-0.0" else "0.0"
  | S754_finite s m e =>
      let '(ds, decpt) := shortest_digits m e in
      let nd := Z.of_nat (String.length ds) in
      let body :=
        if (-4 <? decpt) && (decpt <=? 16) then
          if decpt <=? 0 then "0." +:+ zeros (- decpt) +:+ ds
          else if nd <=? decpt then ds +:+ zeros (decpt - nd) +:+ ".0"
          else str_take decpt ds +:+ "." +:+ str_drop decpt ds
        else
          let x10 := decpt - 1 in
          str_take 1 ds +:+ (if 1 <? nd then "." +:+ str_drop 1 ds else "")
            +:+ "e" +:+ (if x10 <? 0 then "-" else "+")
            +:+ (if Z.abs x10 <? 10 then "0" else "") +:+ digits (Z.abs x10) in
      (if s then "-" else "") +:+ body
  end.

(** *** Library behaviours kept abstract *)

Class Runtime := {
  (** [pd.to_numeric] on a string cell: the number it reads, if any *)
  pd_parse_number : string → option num;
  (** [float(s)] on a string: the float it reads, if any *)
  float_of_string : string → option float;
  (** [str(v)] for a list or a dictionary *)
  str_of_container : pyval → string
}.

Section with_runtime.
Context `{Runtime}.

  (** [str(v)], which is also what an f-string field prints. *)
Definition py_str (v : pyval) : string :=
    match v with
    | PyNone => "None"
    | PyBool b => if b then "True" else "False"
    | PyInt z => pretty z
    | PyFloat f => float_repr f
    | PyStr s => s
    | PyList _ | PyDict _ => str_of_container v
    end.

  (** [float(v)]. *)
Definition py_float (v : pyval) : result float :=
    match v with
    | PyFloat f => Ok f
    | PyInt z =>
        let f := Z_to_float z in
        if PrimFloat.is_infinity f then Raise OverflowError else Ok f
    | PyBool b => Ok (if b then 1%float else 0%float)
    | PyStr s =>
        match float_of_string s with
        | Some f => Ok f
        | None => Raise ValueError
        end
    | PyNone | PyList _ | PyDict _ => Raise TypeError
    end.
End with_runtime.

End Py.
Export Py.

(** ** DataFrames: numeric coercion, ranking, concatenation *)

Module Pd.

(** *** [pd.to_numeric(column, errors="coerce")] *)

Section numeric.
Context `{Runtime}.

(** The number a cell stands for, if any. *)
Definition as_number (v : pyval) : option num :=
  match v with
  | PyBool b => Some (NInt (Z.b2z b))
  | PyInt z => Some (NInt z)
  | PyFloat f => Some (NFloat f)
  | PyStr s => pd_parse_number s
  | PyNone | PyList _ | PyDict _ => None
  end.

Definition in_int64 (z : Z) : bool := (- 2 ^ 63 <=? z) && (z <? 2 ^ 63).

Definition as_int64 (v : pyval) : option Z :=
  match as_number v with
  | Some (NInt z) => if in_int64 z then Some z else None
  | _ => None
  end.

(** With [errors="coerce"] a cell that is no number becomes NaN. *)
Definition as_float64 (v : pyval) : float :=
  match as_number v with
  | Some (NInt z) => Z_to_float z
  | Some (NFloat f) => f
  | None => nan
  end.

Definition is_bool (v : pyval) : bool :=
  match v with PyBool _ => true | _ => false end.

(** The column keeps the [bool] dtype when every cell is a boolean, is an
    [int64] column when every cell is an integer of that range, and a
    [float64] column otherwise. *)
Definition to_numeric (col : list pyval) : list pyval :=
  if forallb is_bool col then col
  else match mapM as_int64 col with
       | Some zs => PyInt <$> zs
       | None => (λ v, PyFloat (as_float64 v)) <$> col
       end.

End numeric.

(** The cells of a numeric column: booleans, integers and floats, NaN being
    the null. *)
Definition is_numeric_cell (v : pyval) : bool :=
  match v with
  | PyBool _ | PyInt _ | PyFloat _ => true
  | PyNone | PyStr _ | PyList _ | PyDict _ => false
  end.

(** [df[c] = column]: the cells are written row by row. *)
Definition assign {A} (set : pyval → A → A) (col : list pyval) (df : list A) : list A :=
  zip_with set col df.

(** *** [df.sort_values(by=..., ascending=False, na_position="last")] *)

(** The exact value of a numeric cell, counted in units of [2^-1074] (every
    finite binary64 number is a whole number of them). *)
Inductive xreal :=
| NegInf
| Finite (z : Z)
| PosInf.

(** [None] is the null (NaN, or a cell that is no number). *)
Definition float_value (f : float) : option xreal :=
  match Prim2SF f with
  | S754_nan => None
  | S754_zero _ => Some (Finite 0)
  | S754_infinity s => Some (if s then NegInf else PosInf)
  | S754_finite s m e =>
      let a := Zpos m * 2 ^ (e + 1074) in
      Some (Finite (if s then - a else a))
  end.

(** The same value, read from the specification of the float. *)
Definition sf_value (x : spec_float) : option xreal :=
  match x with
  | S754_nan => None
  | S754_zero _ => Some (Finite 0)
  | S754_infinity s => Some (if s then NegInf else PosInf)
  | S754_finite s m e =>
      let a := Zpos m * 2 ^ (e + 1074) in
      Some (Finite (if s then - a else a))
  end.

Definition cell_value (v : pyval) : option xreal :=
  match v with
  | PyBool b => Some (Finite (Z.b2z b * 2 ^ 1074))
  | PyInt z => Some (Finite (z * 2 ^ 1074))
  | PyFloat f => float_value f
  | PyNone | PyStr _ | PyList _ | PyDict _ => None
  end.

Definition xreal_compare (a b : xreal) : comparison :=
  match a, b with
  | NegInf, NegInf => Eq
  | NegInf, _ => Lt
  | _, NegInf => Gt
  | PosInf, PosInf => Eq
  | PosInf, _ => Gt
  | _, PosInf => Lt
  | Finite x, Finite y => x ?= y
  end.

(** Descending, nulls last: [Lt] says that the first key is placed before
    the second one. *)
Definition key_compare (a b : option xreal) : comparison :=
  match a, b with
  | None, None => Eq
  | None, Some _ => Gt
  | Some _, None => Lt
  | Some x, Some y => xreal_compare y x
  end.

(** Several keys: the first that differs decides. *)
Fixpoint keys_compare (ks1 ks2 : list (option xreal)) : comparison :=
  match ks1, ks2 with
  | [], [] => Eq
  | [], _ :: _ => Lt
  | _ :: _, [] => Gt
  | k1 :: ks1', k2 :: ks2' =>
      match key_compare k1 k2 with
      | Eq => keys_compare ks1' ks2'
      | c => c
      end
  end.

Section sort.
Context {A : Type} (by_cols : list (A → pyval)).

Definition keys (r : A) : list (option xreal) :=
  (λ col, cell_value (col r)) <$> by_cols.

Definition rows_compare (a b : A) : comparison :=
  keys_compare (keys a) (keys b).

(** [a] is not placed after [b]. *)
Definition not_after (a b : A) : Prop := rows_compare a b ≠ Gt.

(** A row is placed before the first row that is strictly after it, and so
    before the rows it ties with. *)
Fixpoint insert_row (x : A) (l : list A) : list A :=
  match l with
  | [] => [x]
  | y :: l' =>
      match rows_compare x y with
      | Gt => y :: insert_row x l'
      | _ => x :: l
      end
  end.

(** The sort on several keys is stable; it is written here as an insertion
    sort from the right, which places every row before the later rows it
    ties with. *)
Definition sort_values (df : list A) : list A := foldr insert_row [] df.

End sort.

(** [pd.concat(frames, ignore_index=True)]: the rows of the frames, one frame
    after the other. *)
Definition concat {A} (frames : list (list A)) : list A := mjoin frames.

(** [df.head(n)]: the first [n] rows, or all but the last [-n] for a
    negative [n]. *)
Definition head {A} (n : Z) (df : list A) : list A :=
  if 0 <=? n then take (Z.to_nat n) df
  else take (length df - Z.to_nat (- n)) df.

End Pd.

(** ** The dashboard *)

Module App.
Import Pd.

(** *** The outside world *)

Record request := {
  url : string;
  params : list (string * string);
  timeout : Z
}.

Record response := {
  status_code : Z;
  text : string
}.

Record world := {
  (** [requests.get]: a response, or the exception of a failed transport *)
  requests_get : request → result response;
  (** the JSON decoder behind [r.json()] and [json.load] *)
  json_loads : string → result pyval;
  (** [os.path.exists] *)
  path_exists : string → bool;
  (** [open(path, "r")] and the reading of the file *)
  read_file : string → result string
}.

(** *** [fetch_json] *)

Definition fetch_json (w : world) (source : string) : result pyval :=
  if negb (truthy (PyStr source)) then Ok (PyList [])
  else
    try_except
      (if startswith (lower source) "http" then
         r ← requests_get w {| url := source; params := []; timeout := 12 |};
         if negb (status_code r =? 200) then Ok (PyList [])
         else json_loads w (text r)
       else if path_exists w source then
         f ← read_file w source;
         json_loads w f
       else Ok (PyList []))
      (λ _, Ok (PyList [])).

(** *** Rows and frames *)

Record row := Row {
  scan : pyval;
  symbol : pyval;
  score : pyval;
  type : pyval;
  price : pyval;
  pct : pyval;
  vol : pyval;
  dir : pyval;
  vwap : pyval;
  pos : pyval;
  momo : pyval
}.

Abbreviation DataFrame := (list row).

Definition set_score (v : pyval) (r : row) : row :=
  Row (scan r) (symbol r) v (type r) (price r) (pct r) (vol r) (dir r) (vwap r) (pos r) (momo r).
Definition set_pct (v : pyval) (r : row) : row :=
  Row (scan r) (symbol r) (score r) (type r) (price r) v (vol r) (dir r) (vwap r) (pos r) (momo r).
Definition set_vol (v : pyval) (r : row) : row :=
  Row (scan r) (symbol r) (score r) (type r) (price r) (pct r) v (dir r) (vwap r) (pos r) (momo r).

(** *** [to_df] *)

(** The dictionary appended to [rows] for the raw record [r]. *)
Definition make_row (scan_tag : string) (r : gmap string pyval) : row := {|
  scan := PyStr scan_tag;
  symbol := py_or (py_or (get r "symbol") (get r "ticker")) (PyStr "");
  score := get r "score";
  type := py_or (py_or (get r "setup") (get r "type")) (PyStr scan_tag);
  price := py_or (get r "price") (get r "current_price");
  pct := py_or (get r "pct") (get r "gain_pct");
  vol := py_or (get r "vol") (get r "latest_volume");
  dir := get r "dir";
  vwap := get r "vwap";
  pos := py_or (get r "pos") (get r "position");
  momo := py_or (get r "mom_pct") (get r "momo15")
|}.

(** The columns of [make_row] that read one key and fall back to a second
    one: the two keys and the column. *)
Definition fallback_pairs : list (string * string * (row → pyval)) :=
  [("price", "current_price", price);
   ("pct", "gain_pct", pct);
   ("vol", "latest_volume", vol);
   ("pos", "position", pos);
   ("mom_pct", "momo15", momo)].

(** [r.get] exists on dictionaries only. *)
Definition record_row (scan_tag : string) (r : pyval) : result row :=
  match r with
  | PyDict d => Ok (make_row scan_tag d)
  | _ => Raise AttributeError
  end.

(** [for r in records]: the items of a list, the keys of a dictionary, the
    characters of a string; nothing else that is true can be iterated. *)
Definition iterate (records : pyval) : result (list pyval) :=
  match records with
  | PyList l => Ok l
  | PyDict d => Ok (PyStr <$> (map_to_list d).*1)
  | PyStr s => Ok ((λ c, PyStr (String c "")) <$> list_ascii_of_string s)
  | PyNone | PyBool _ | PyInt _ | PyFloat _ => Raise TypeError
  end.

Section normalise.
Context `{Runtime}.

(** The three [pd.to_numeric] assignments. *)
Definition coerce_columns (df : DataFrame) : DataFrame :=
  let df := assign set_score (to_numeric (score <$> df)) df in
  let df := assign set_pct (to_numeric (pct <$> df)) df in
  let df := assign set_vol (to_numeric (vol <$> df)) df in
  df.

Definition to_df (records : pyval) (scan_tag : string) : result DataFrame :=
  if negb (truthy records) then Ok []
  else
    rs ← iterate records;
    rows ← for_each (record_row scan_tag) rs;
    let df := coerce_columns rows in
    Ok (sort_values [score; pct; vol] df).

(** *** [human_int] *)

(** In the handler [x] is the argument when [float(x)] raised, and the float
    when [int(x)] raised. *)
Definition human_int (x : pyval) : string :=
  match py_float x with
  | Raise _ => py_str x
  | Ok x' =>
      if (1000000 <=? x')%float then format_1f (x' / 1000000) +:+ "M"
      else if (1000 <=? x')%float then format_1f (x' / 1000) +:+ "k"
      else match float_to_int x' with
           | Ok i => pretty i
           | Raise _ => py_str (PyFloat x')
           end
  end.

(** *** [df_all] *)

Definition df_all (frames : list DataFrame) (max_rows : Z) : DataFrame :=
  head max_rows (concat frames).

(** The "load data" block: four sources, four frames, one table. *)
Definition load_data (w : world) (AM_URL OPEN_URL LUNCH_URL POWER_URL : string)
    (max_rows : Z) : result DataFrame :=
  am ← fetch_json w AM_URL;
  openC ← fetch_json w OPEN_URL;
  lunch ← fetch_json w LUNCH_URL;
  power ← fetch_json w POWER_URL;
  df_am ← to_df am "08:00 Squeeze";
  df_open ← to_df openC "10:00 Confirm";
  df_lunch ← to_df lunch "13:45 Pattern";
  df_power ← to_df power "15:15 Power";
  Ok (df_all [df_am; df_open; df_lunch; df_power] max_rows).

(** *** The "Send to Telegram" block *)

(** One line of the digest.  ['[' + d + ']'] needs a string. *)
Definition text_line (r : row) : result string :=
  let sym := symbol r in
  let score := score r in
  let price := price r in
  let scan := scan r in
  let d := py_or (dir r) (PyStr "") in
  let pct := pct r in
  bracket ← (if truthy d then
               match d with
               | PyStr s => Ok ("[" +:+ s +:+ "]")
               | _ => Raise TypeError
               end
             else Ok "");
  Ok (py_str sym +:+ " $" +:+ py_str price +:+ " " +:+ bracket
      +:+ "  Score:" +:+ py_str score +:+ "  Δ%:" +:+ py_str pct
      +:+ "  (" +:+ py_str scan +:+ ")").

(** What the operator is shown. *)
Inductive notice :=
| MissingCredentials                        (* st.error *)
| NothingToSend                             (* st.warning *)
| Sent                                      (* st.success *)
| TelegramError (status : Z) (body : string) (* st.error *)
| SendFailed (e : exn).                     (* st.error *)

Inductive level := Error | Warning | Success.

Definition level_of (n : notice) : level :=
  match n with
  | MissingCredentials | TelegramError _ _ | SendFailed _ => Error
  | NothingToSend => Warning
  | Sent => Success
  end.

Definition msg (text_lines : list string) : string :=
  "AIMe BEAST — Top Picks" +:+ nl +:+ join nl text_lines.

(** The body of [if st.button("Send to Telegram")]: the requests it issues
    and the notice it shows, or the exception that ends the script. *)
Definition send_to_telegram (w : world) (TELEGRAM_BOT_TOKEN TELEGRAM_CHAT_ID : string)
    (df_all : DataFrame) (push_n : Z) : list request * result notice :=
  if negb (truthy (PyStr TELEGRAM_BOT_TOKEN)) || negb (truthy (PyStr TELEGRAM_CHAT_ID))
  then ([], Ok MissingCredentials)
  else
    match df_all with
    | [] => ([], Ok NothingToSend)
    | _ =>
        match for_each text_line (head push_n df_all) with
        | Raise e => ([], Raise e)
        | Ok text_lines =>
            let req := {|
              url := "https://api.telegram.org/bot" +:+ TELEGRAM_BOT_TOKEN +:+ "/sendMessage";
              params := [("chat_id", TELEGRAM_CHAT_ID); ("text", msg text_lines)];
              timeout := 10
            |} in
            ([req],
             Ok (match requests_get w req with
                 | Ok resp =>
                     if status_code resp =? 200 then Sent
                     else TelegramError (status_code resp) (text resp)
                 | Raise e => SendFailed e
                 end))
        end
    end.

End normalise.

(** *** Instances for the closed examples *)

Fixpoint read_digits_from (acc : Z) (s : string) : option Z :=
  match s with
  | EmptyString => Some acc
  | String c s' =>
      let n := Z.of_nat (nat_of_ascii c) in
      if (48 <=? n) && (n <=? 57) then read_digits_from (10 * acc + (n - 48)) s'
      else None
  end.

Definition read_digits (s : string) : option Z :=
  match s with
  | EmptyString => None
  | _ => read_digits_from 0 s
  end.

(** A runtime that reads the strings of decimal digits as integers and no
    other string as a number; the examples print no list and no dictionary,
    which it renders by their brackets. *)
Definition digits_runtime : Runtime := {|
  pd_parse_number s := NInt <$> read_digits s;
  float_of_string s := Z_to_float <$> read_digits s;
  str_of_container v := match v with PyList _ => "[...]" | _ => "{...}" end
|}.

(** The record of the digest example, with and without its direction. *)
Definition abc_row : row := {|
  scan := PyStr "AM"; symbol := PyStr "ABC"; score := PyInt 5; type := PyNone;
  price := PyFloat 12.5; pct := PyFloat 2.1; vol := PyNone; dir := PyStr "up";
  vwap := PyNone; pos := PyNone; momo := PyNone
|}.

Definition abc_row_no_dir : row := {|
  scan := PyStr "AM"; symbol := PyStr "ABC"; score := PyInt 5; type := PyNone;
  price := PyFloat 12.5; pct := PyFloat 2.1; vol := PyNone; dir := PyNone;
  vwap := PyNone; pos := PyNone; momo := PyNone
|}.

(** The same record with a number for its direction. *)
Definition abc_row_numeric_dir : row := {|
  scan := PyStr "AM"; symbol := PyStr "ABC"; score := PyInt 5; type := PyNone;
  price := PyFloat 12.5; pct := PyFloat 2.1; vol := PyNone; dir := PyInt 1;
  vwap := PyNone; pos := PyNone; momo := PyNone
|}.

(** A world without network and without files. *)
Definition offline : world := {|
  requests_get _ := Raise ConnectionError;
  json_loads _ := Raise JSONDecodeError;
  path_exists _ := false;
  read_file _ := Raise OSError
|}.

(** *** [extract_options] *)

(** [r.get(k, d)]. *)
Definition get_or (r : gmap string pyval) (k : string) (d : pyval) : pyval :=
  default d (r !! k).

Record option_row := OptionRow {
  o_symbol : pyval;
  o_type : pyval;
  options_ticker : pyval;
  strike : pyval;
  expiration : pyval;
  bid : pyval;
  ask : pyval;
  mid : pyval;
  buy_min : pyval;
  buy_max : pyval;
  target : pyval;
  stop : pyval
}.

(** One turn of the loop: the row appended for the record [r], if any. *)
Definition option_entry (r : pyval) : result (option option_row) :=
  match r with
  | PyDict d =>
      let rec := py_or (get d "options") PyNone in
      if truthy rec then
        match rec with
        | PyDict o =>
            Ok (Some {|
              o_symbol := get_or d "symbol" (PyStr "");
              o_type := get o "type";
              options_ticker := get o "options_ticker";
              strike := get o "strike";
              expiration := get o "expiration";
              bid := get o "bid";
              ask := get o "ask";
              mid := get o "mid";
              buy_min := get o "buy_min";
              buy_max := get o "buy_max";
              target := get o "target";
              stop := get o "stop"
            |})
        | _ => Ok None
        end
      else Ok None
  | _ => Raise AttributeError
  end.

Definition extract_options (records : pyval) : result (list option_row) :=
  rs ← iterate (py_or records (PyList []));
  entries ← for_each option_entry rs;
  Ok (omap (M := list) id entries).

(** *** The options tab *)

(** What the tab shows: the table of the option rows, each with the tag of
    its scan, or the note that no options were saved. *)
Inductive options_view :=
| OptionsTable (opts : list (string * option_row))
| OptionsInfo.

(** [if not df_opt.empty: df_opt["scan"] = tag; options_frames.append(df_opt)]. *)
Fixpoint options_frames (frames : list (string * list option_row))
    : list (list (string * option_row)) :=
  match frames with
  | [] => []
  | (tag, df_opt) :: rest =>
      match df_opt with
      | [] => options_frames rest
      | _ => ((λ o, (tag, o)) <$> df_opt) :: options_frames rest
      end
  end.

Definition options_tab (am openC lunch power : pyval) : result options_view :=
  frames ← for_each (λ '(tag, recs), df_opt ← extract_options recs; Ok (tag, df_opt))
             [("08:00", am); ("10:00", openC); ("13:45", lunch); ("15:15", power)];
  match options_frames frames with
  | [] => Ok OptionsInfo
  | fs => Ok (OptionsTable (concat fs))
  end.

(** *** [next_scan_times_et] *)

(** ["%02d"] and ["%06d"] for a number that is not negative. *)
Definition pad (width : nat) (n : Z) : string :=
  let ds := pretty n in
  String.concat "" (repeat "0"%string (width - String.length ds)) +:+ ds.

Definition day_us : Z := 86400 * 1000000.

(** [str(delta)] for a [timedelta] of [us] microseconds: days, seconds and
    microseconds are normalised as Python does, the seconds and the
    microseconds being never negative. *)
Definition timedelta_str (us : Z) : string :=
  let days := us / day_us in
  let seconds := us mod day_us / 1000000 in
  let microseconds := us mod day_us mod 1000000 in
  let mm := seconds / 60 in
  let ss := seconds mod 60 in
  let hh := mm / 60 in
  let mm := mm mod 60 in
  let s := pretty hh +:+ ":" +:+ pad 2 mm +:+ ":" +:+ pad 2 ss in
  let s := if days =? 0 then s
           else pretty days +:+ " day" +:+ (if Z.abs days =? 1 then "" else "s")
                +:+ ", " +:+ s in
  if microseconds =? 0 then s else s +:+ "." +:+ pad 6 microseconds.

(** [s.split(sep)] for a separator of one character. *)
Fixpoint split (sep : ascii) (s : string) : list string :=
  match s with
  | EmptyString => [EmptyString]
  | String c s' =>
      if Ascii.eqb c sep then EmptyString :: split sep s'
      else match split sep s' with
           | [] => [String c EmptyString]
           | p :: ps => String c p :: ps
           end
  end.

(** [int(s)] on a string of decimal digits, the only strings it is given. *)
Definition int_of_digits (s : string) : result Z :=
  match read_digits s with
  | Some z => Ok z
  | None => Raise ValueError
  end.

(** [h, m = map(int, hhmm.split(":"))]. *)
Definition hour_minute (hhmm : string) : result (Z * Z) :=
  match split ":" hhmm with
  | [a; b] => h ← int_of_digits a; m ← int_of_digits b; Ok (h, m)
  | _ => Raise ValueError
  end.

Definition targets : list (string * string) :=
  [("08:00", "Premarket");
   ("10:00", "Open Confirm");
   ("13:45", "Midday Pattern");
   ("15:15", "Power Hour")].

(** The clock is read in the fixed zone of the code (UTC-4); [now] is the
    time of the day in microseconds since midnight there.  For every target
    the label, the time and the time left until it comes next. *)
Definition next_scan_times_et (now : Z) : result (list (string * string * string)) :=
  for_each
    (λ '(hhmm, label),
       hm ← hour_minute hhmm;
       let t := (hm.1 * 3600 + hm.2 * 60) * 1000000 in
       let t := if t <? now then t + day_us else t in
       let delta := t - now in
       Ok (label, hhmm, default "" (List.head (split "." (timedelta_str delta)))))
    targets.

(** *** Predicates and instances for the statements on these blocks *)

Definition is_dict (v : pyval) : bool :=
  match v with PyDict _ => true | _ => false end.

(** The record carries a dictionary of options that is not empty. *)
Definition has_options (d : gmap string pyval) : bool :=
  match get d "options" with
  | PyDict o => truthy (PyDict o)
  | _ => false
  end.

(** The direction of the row can be printed by [text_line]: it is a string,
    or it is false. *)
Definition dir_prints (r : row) : bool :=
  match dir r with
  | PyStr _ => true
  | v => negb (truthy v)
  end.

(** The option row read from the record [d] with the options [opt]. *)
Definition reads_options (d : gmap string pyval) (o : option_row) : Prop :=
  ∃ opt, get d "options" = PyDict opt
    ∧ o_symbol o = get_or d "symbol" (PyStr "")
    ∧ o_type o = get opt "type"
    ∧ options_ticker o = get opt "options_ticker"
    ∧ strike o = get opt "strike"
    ∧ expiration o = get opt "expiration"
    ∧ bid o = get opt "bid" ∧ ask o = get opt "ask" ∧ mid o = get opt "mid"
    ∧ buy_min o = get opt "buy_min" ∧ buy_max o = get opt "buy_max"
    ∧ target o = get opt "target" ∧ stop o = get opt "stop".

(** [H:MM:SS] for a number of seconds. *)
Definition hms (seconds : Z) : string :=
  pretty (seconds / 3600) +:+ ":" +:+ pad 2 (seconds / 60 mod 60)
    +:+ ":" +:+ pad 2 (seconds mod 60).

(** The whole seconds from [now] to the next [h:m] o'clock. *)
Definition seconds_left (h m now : Z) : Z :=
  ((h * 3600 + m * 60) * 1000000 - now) mod day_us / 1000000.

(** The keys of a raw record that [make_row] reads. *)
Definition read_keys : list string :=
  ["symbol"; "ticker"; "score"; "setup"; "type"; "price"; "current_price";
   "pct"; "gain_pct"; "vol"; "latest_volume"; "dir"; "vwap"; "pos"; "position";
   "mom_pct"; "momo15"].

Definition scan_tags : list string :=
  ["08:00 Squeeze"; "10:00 Confirm"; "13:45 Pattern"; "15:15 Power"].

(** A world whose only feed is the local file of the morning scan, holding
    two records. *)
Definition morning_file : world := {|
  requests_get _ := Raise ConnectionError;
  json_loads s :=
    if String.eqb s "[am]" then
      Ok (PyList [PyDict {[ "symbol" := PyStr "ABC"; "score" := PyInt 5 ]};
                  PyDict {[ "ticker" := PyStr "XYZ"; "score" := PyInt 9 ]}])
    else Raise JSONDecodeError;
  path_exists p := String.eqb p "am_runners.json";
  read_file p := if String.eqb p "am_runners.json" then Ok "[am]" else Raise OSError
|}.

(** A world whose server answers every request with a JSON object. *)
Definition object_feed : world := {|
  requests_get _ := Ok {| status_code := 200; text := "{}" |};
  json_loads _ := Ok (PyDict {[ "error" := PyStr "down" ]});
  path_exists _ := false;
  read_file _ := Raise OSError
|}.

End App.
Export Pd App.

(** * Properties *)

(** ** Exceptions and loops *)

Lemma for_each_record_rows (scan_tag : string) (ds : list (gmap string pyval)) :
  for_each (record_row scan_tag) (PyDict <$> ds) = Ok (make_row scan_tag <$> ds).
Proof.
  induction ds as [|d ds IH]; [reflexivity|].
  cbn [fmap list_fmap for_each record_row] in *.
  unfold mbind, result_bind. cbn. now rewrite IH.
Qed.

(** ** Columns *)

Section columns.
Context `{Runtime}.

Lemma length_to_numeric (col : list pyval) : length (to_numeric col) = length col.
Proof.
  unfold to_numeric. destruct (forallb is_bool col); [reflexivity|].
  destruct (mapM as_int64 col) as [zs|] eqn:E; rewrite length_fmap; [|reflexivity].
  symmetry. eapply length_mapM, E.
Qed.

Lemma length_assign {A} (set : pyval → A → A) (col : list pyval) (df : list A) :
  length col = length df → length (assign set col df) = length df.
Proof. intros E. unfold assign. now apply length_zip_with_r_eq. Qed.

Lemma fmap_assign_same {A} (proj : A → pyval) (set : pyval → A → A)
    (col : list pyval) (df : list A) :
  (∀ v r, proj (set v r) = v) → length col = length df →
  proj <$> assign set col df = col.
Proof.
  intros Hset. revert df.
  induction col as [|v col IH]; intros [|r df] E; try discriminate; [reflexivity|].
  cbn. rewrite Hset. f_equal. apply IH. now injection E.
Qed.

Lemma fmap_assign_other {A} (proj : A → pyval) (set : pyval → A → A)
    (col : list pyval) (df : list A) :
  (∀ v r, proj (set v r) = proj r) → length col = length df →
  proj <$> assign set col df = proj <$> df.
Proof.
  intros Hset. revert df.
  induction col as [|v col IH]; intros [|r df] E; try discriminate; [reflexivity|].
  cbn. rewrite Hset. f_equal. apply IH. now injection E.
Qed.

Lemma to_numeric_cells (col : list pyval) :
  Forall (λ v, is_numeric_cell v = true) (to_numeric col).
Proof.
  unfold to_numeric. destruct (forallb is_bool col) eqn:Eb.
  - induction col as [|v col IH]; [constructor|].
    cbn in Eb. apply andb_prop in Eb as [Ev Ecol].
    constructor; [now destruct v|now apply IH].
  - destruct (mapM as_int64 col); apply Forall_fmap, Forall_true; reflexivity.
Qed.

(** A cell that is no number becomes NaN. *)
Lemma to_numeric_coerces (col : list pyval) (i : nat) (v : pyval) :
  col !! i = Some v → as_number v = None → to_numeric col !! i = Some (PyFloat nan).
Proof.
  intros Hi Hv. unfold to_numeric.
  destruct (forallb is_bool col) eqn:Eb.
  - exfalso. revert i Hi. induction col as [|u col IH]; intros i Hi.
    + now rewrite lookup_nil in Hi.
    + cbn in Eb. apply andb_prop in Eb as [Eu Ecol]. destruct i as [|i].
      * injection Hi as ->. now destruct v.
      * exact (IH Ecol i Hi).
  - destruct (mapM as_int64 col) as [zs|] eqn:Em.
    + exfalso. apply mapM_Some_1 in Em.
      destruct (Forall2_lookup_l _ _ _ _ _ Em Hi) as (z & _ & Hz).
      unfold as_int64 in Hz. now rewrite Hv in Hz.
    + rewrite list_lookup_fmap, Hi. cbn. unfold as_float64. now rewrite Hv.
Qed.

Lemma length_coerce_columns (df : DataFrame) : length (coerce_columns df) = length df.
Proof.
  unfold coerce_columns.
  rewrite !length_assign; try reflexivity;
    rewrite length_to_numeric, length_fmap, ?length_assign; try reflexivity;
    now rewrite length_to_numeric, length_fmap.
Qed.

Lemma score_coerce_columns (df : DataFrame) :
  score <$> coerce_columns df = to_numeric (score <$> df).
Proof.
  unfold coerce_columns.
  rewrite (fmap_assign_other score set_vol); [|reflexivity|].
  2: { now rewrite length_to_numeric, length_fmap. }
  rewrite (fmap_assign_other score set_pct); [|reflexivity|].
  2: { now rewrite length_to_numeric, length_fmap. }
  apply fmap_assign_same; [reflexivity|]. now rewrite length_to_numeric, length_fmap.
Qed.

Lemma pct_coerce_columns (df : DataFrame) :
  pct <$> coerce_columns df = to_numeric (pct <$> df).
Proof.
  unfold coerce_columns.
  rewrite (fmap_assign_other pct set_vol); [|reflexivity|].
  2: { rewrite length_to_numeric, length_fmap, !length_assign; try reflexivity;
       now rewrite length_to_numeric, length_fmap. }
  rewrite (fmap_assign_same pct set_pct); [|reflexivity|].
  2: { now rewrite length_to_numeric, length_fmap. }
  f_equal. apply fmap_assign_other; [reflexivity|].
  now rewrite length_to_numeric, length_fmap.
Qed.

Lemma vol_coerce_columns (df : DataFrame) :
  vol <$> coerce_columns df = to_numeric (vol <$> df).
Proof.
  unfold coerce_columns.
  rewrite (fmap_assign_same vol set_vol); [|reflexivity|].
  2: { now rewrite length_to_numeric, length_fmap. }
  f_equal. rewrite (fmap_assign_other vol set_pct); [|reflexivity|].
  2: { now rewrite length_to_numeric, length_fmap. }
  apply fmap_assign_other; [reflexivity|].
  now rewrite length_to_numeric, length_fmap.
Qed.

(** The other columns are left as they are. *)
Lemma other_coerce_columns (proj : row → pyval) (df : DataFrame) :
  (∀ v r, proj (set_score v r) = proj r) →
  (∀ v r, proj (set_pct v r) = proj r) →
  (∀ v r, proj (set_vol v r) = proj r) →
  proj <$> coerce_columns df = proj <$> df.
Proof.
  intros H1 H2 H3. unfold coerce_columns.
  rewrite (fmap_assign_other proj set_vol); [|exact H3|].
  2: { rewrite length_to_numeric, length_fmap. reflexivity. }
  rewrite (fmap_assign_other proj set_pct); [|exact H2|].
  2: { now rewrite length_to_numeric, length_fmap. }
  apply fmap_assign_other; [exact H1|].
  now rewrite length_to_numeric, length_fmap.
Qed.

End columns.

(** ** The ranking order *)

Lemma xreal_compare_refl (a : xreal) : xreal_compare a a = Eq.
Proof. destruct a; simpl; auto using Z.compare_refl. Qed.

Lemma xreal_compare_eq (a b : xreal) : xreal_compare a b = Eq → a = b.
Proof.
  destruct a, b; simpl; try discriminate; try reflexivity.
  intros E. f_equal. now apply Z.compare_eq.
Qed.

Lemma xreal_compare_antisym (a b : xreal) :
  xreal_compare b a = CompOpp (xreal_compare a b).
Proof. destruct a, b; simpl; auto using Z.compare_antisym. Qed.

Lemma xreal_compare_trans (a b c : xreal) :
  xreal_compare a b = Lt → xreal_compare b c = Lt → xreal_compare a c = Lt.
Proof.
  destruct a, b, c; simpl; try discriminate; try reflexivity.
  rewrite !Z.compare_lt_iff. lia.
Qed.

Lemma key_compare_refl (a : option xreal) : key_compare a a = Eq.
Proof. destruct a; simpl; auto using xreal_compare_refl. Qed.

Lemma key_compare_eq (a b : option xreal) : key_compare a b = Eq → a = b.
Proof.
  destruct a, b; simpl; try discriminate; try reflexivity.
  intros E. f_equal. symmetry. now apply xreal_compare_eq.
Qed.

Lemma key_compare_antisym (a b : option xreal) :
  key_compare b a = CompOpp (key_compare a b).
Proof. destruct a, b; simpl; auto using xreal_compare_antisym. Qed.

Lemma key_compare_trans (a b c : option xreal) :
  key_compare a b = Lt → key_compare b c = Lt → key_compare a c = Lt.
Proof.
  destruct a, b, c; simpl; try discriminate; try reflexivity.
  intros E1 E2. eapply xreal_compare_trans; eassumption.
Qed.

Lemma keys_compare_refl (ks : list (option xreal)) : keys_compare ks ks = Eq.
Proof. induction ks as [|k ks IH]; simpl; [|rewrite key_compare_refl]; auto. Qed.

Lemma keys_compare_eq (ks1 ks2 : list (option xreal)) :
  keys_compare ks1 ks2 = Eq → ks1 = ks2.
Proof.
  revert ks2. induction ks1 as [|k1 ks1 IH]; intros [|k2 ks2]; simpl;
    try discriminate; try reflexivity.
  destruct (key_compare k1 k2) eqn:E; try discriminate.
  intros E'. apply key_compare_eq in E. apply IH in E'. congruence.
Qed.

Lemma keys_compare_antisym (ks1 ks2 : list (option xreal)) :
  keys_compare ks2 ks1 = CompOpp (keys_compare ks1 ks2).
Proof.
  revert ks2. induction ks1 as [|k1 ks1 IH]; intros [|k2 ks2]; simpl; try reflexivity.
  rewrite (key_compare_antisym k1 k2).
  destruct (key_compare k1 k2); simpl; auto.
Qed.

Lemma keys_compare_trans (ks1 ks2 ks3 : list (option xreal)) :
  keys_compare ks1 ks2 = Lt → keys_compare ks2 ks3 = Lt → keys_compare ks1 ks3 = Lt.
Proof.
  revert ks2 ks3.
  induction ks1 as [|k1 ks1 IH]; intros [|k2 ks2] [|k3 ks3]; simpl;
    try discriminate; try reflexivity.
  destruct (key_compare k1 k2) eqn:E12; try discriminate;
    destruct (key_compare k2 k3) eqn:E23; try discriminate.
  - apply key_compare_eq in E12, E23. subst. rewrite key_compare_refl. apply IH.
  - apply key_compare_eq in E12. subst. now rewrite E23.
  - apply key_compare_eq in E23. subst. now rewrite E12.
  - now rewrite (key_compare_trans _ _ _ E12 E23).
Qed.

(** ** The stable sort *)

Section sorting.
Context {A : Type} (by_cols : list (A → pyval)).

#[local] Abbreviation cmp := (rows_compare by_cols).
#[local] Abbreviation sort := (sort_values by_cols).
#[local] Abbreviation not_after := (not_after by_cols).

Lemma rows_compare_refl (a : A) : cmp a a = Eq.
Proof. apply keys_compare_refl. Qed.

Lemma rows_compare_antisym (a b : A) : cmp b a = CompOpp (cmp a b).
Proof. apply keys_compare_antisym. Qed.

Lemma rows_compare_eq_l (a b c : A) : cmp a b = Eq → cmp a c = cmp b c.
Proof. unfold rows_compare. intros E. now rewrite (keys_compare_eq _ _ E). Qed.

Lemma rows_compare_eq_r (a b c : A) : cmp b c = Eq → cmp a b = cmp a c.
Proof. unfold rows_compare. intros E. now rewrite (keys_compare_eq _ _ E). Qed.

Lemma not_after_total (a b : A) : cmp a b = Gt → not_after b a.
Proof. unfold not_after. intros E. rewrite rows_compare_antisym, E. discriminate. Qed.

Lemma not_after_trans (a b c : A) : not_after a b → not_after b c → not_after a c.
Proof.
  unfold not_after. intros Hab Hbc.
  destruct (cmp a b) eqn:E1; [| |congruence].
  - now rewrite (rows_compare_eq_l _ _ c E1).
  - destruct (cmp b c) eqn:E2; [| |congruence].
    + rewrite <- (rows_compare_eq_r a b c E2), E1. discriminate.
    + unfold rows_compare in *. rewrite (keys_compare_trans _ _ _ E1 E2). discriminate.
Qed.

Lemma insert_row_Permutation (x : A) (l : list A) : insert_row by_cols x l ≡ₚ x :: l.
Proof.
  induction l as [|y l IH]; simpl; [reflexivity|].
  destruct (cmp x y); try reflexivity.
  rewrite IH. apply Permutation_swap.
Qed.

Lemma sort_values_Permutation (df : list A) : sort df ≡ₚ df.
Proof.
  induction df as [|x df IH]; simpl; [reflexivity|].
  now rewrite insert_row_Permutation, IH.
Qed.

Lemma length_sort_values (df : list A) : length (sort df) = length df.
Proof. apply Permutation_length, sort_values_Permutation. Qed.

Lemma insert_row_sorted (x : A) (l : list A) :
  StronglySorted not_after l → StronglySorted not_after (insert_row by_cols x l).
Proof.
  induction l as [|y l IH]; simpl; intros Hs.
  - repeat constructor.
  - apply StronglySorted_inv in Hs as [Hl Hy].
    assert (Hxy : cmp x y ≠ Gt → StronglySorted not_after (x :: y :: l)).
    { intros Hle. constructor; [now constructor|].
      constructor; [exact Hle|].
      eapply Forall_impl; [exact Hy|]. intros z Hz. now apply not_after_trans with y. }
    destruct (cmp x y) eqn:E; try (apply Hxy; discriminate).
    constructor; [now apply IH|].
    rewrite insert_row_Permutation. constructor; [now apply not_after_total|exact Hy].
Qed.

Lemma sort_values_sorted (df : list A) : StronglySorted not_after (sort df).
Proof.
  induction df as [|x df IH]; simpl; [constructor|now apply insert_row_sorted].
Qed.

(** The rows that tie with [k] keep their order. *)
Lemma insert_row_stable (k x : A) (l : list A) :
  filter (λ r, cmp k r = Eq) (insert_row by_cols x l)
  = filter (λ r, cmp k r = Eq) (x :: l).
Proof.
  induction l as [|y l IH]; simpl; [reflexivity|].
  destruct (cmp x y) eqn:E; try reflexivity.
  rewrite (filter_cons _ y), IH, !(filter_cons _ x), !(filter_cons _ y).
  destruct (decide (cmp k x = Eq)) as [Ex|Ex]; [|reflexivity].
  destruct (decide (cmp k y = Eq)) as [Ey|Ey]; [|reflexivity].
  exfalso. rewrite <- (rows_compare_eq_l _ _ y Ex), Ey in E. discriminate.
Qed.

Lemma sort_values_stable (k : A) (df : list A) :
  filter (λ r, cmp k r = Eq) (sort df) = filter (λ r, cmp k r = Eq) df.
Proof.
  induction df as [|x df IH]; simpl; [reflexivity|].
  rewrite insert_row_stable, !(filter_cons _ x), IH. reflexivity.
Qed.

Lemma sorted_lookup (l : list A) (i j : nat) (a b : A) :
  StronglySorted not_after l → (i < j)%nat →
  l !! i = Some a → l !! j = Some b → not_after a b.
Proof.
  intros Hs. revert i j. induction Hs as [|x l Hs IH Hx]; intros i j Hij Hi Hj.
  - now rewrite lookup_nil in Hi.
  - destruct j as [|j]; [lia|]. destruct i as [|i]; simpl in *.
    + injection Hi as ->. rewrite Forall_forall in Hx. apply Hx.
      eapply list_elem_of_lookup_2, Hj.
    + apply (IH i j); [lia|assumption..].
Qed.

(** A row that is strictly before another one comes first. *)
Lemma sorted_strict (l : list A) (i j : nat) (a b : A) :
  StronglySorted not_after l →
  l !! i = Some a → l !! j = Some b → cmp a b = Lt → (i < j)%nat.
Proof.
  intros Hs Hi Hj E.
  destruct (Nat.lt_trichotomy i j) as [Hlt|[->|Hgt]]; [assumption| |].
  - rewrite Hi in Hj. injection Hj as ->. rewrite rows_compare_refl in E. discriminate.
  - pose proof (sorted_lookup l j i b a Hs Hgt Hj Hi) as Hba.
    unfold not_after in Hba. rewrite rows_compare_antisym, E in Hba. now elim Hba.
Qed.

End sorting.

(** ** [to_df] on a list of raw records *)

Section to_df_facts.
Context `{Runtime}.

Lemma to_df_records (ds : list (gmap string pyval)) (scan_tag : string) :
  to_df (PyList (PyDict <$> ds)) scan_tag
  = Ok (sort_values [score; pct; vol] (coerce_columns (make_row scan_tag <$> ds))).
Proof.
  destruct ds as [|d ds]; [reflexivity|].
  unfold to_df. cbn [truthy negb iterate].
  unfold mbind at 1, result_bind at 1.
  now rewrite for_each_record_rows.
Qed.

(** C1. On every list of raw records and every scan tag [to_df] returns a
    frame, with one row per record; on an empty list and on [None] it returns
    the empty frame. *)
Theorem to_df_keeps_every_record (ds : list (gmap string pyval)) (scan_tag : string) :
  (∃ df, to_df (PyList (PyDict <$> ds)) scan_tag = Ok df ∧ length df = length ds)
  ∧ to_df (PyList []) scan_tag = Ok []
  ∧ to_df PyNone scan_tag = Ok [].
Proof.
  split; [|split; reflexivity].
  eexists. split; [apply to_df_records|].
  now rewrite length_sort_values, length_coerce_columns, length_fmap.
Qed.

Lemma rows_compare_score_pct_vol (a b : row) :
  rows_compare [score; pct; vol] a b
  = match key_compare (cell_value (score a)) (cell_value (score b)) with
    | Eq =>
        match key_compare (cell_value (pct a)) (cell_value (pct b)) with
        | Eq => key_compare (cell_value (vol a)) (cell_value (vol b))
        | c => c
        end
    | c => c
    end.
Proof.
  unfold rows_compare, keys. cbn [fmap list_fmap keys_compare].
  destruct (key_compare (cell_value (score a)) (cell_value (score b))); try reflexivity.
  destruct (key_compare (cell_value (pct a)) (cell_value (pct b))); try reflexivity.
  now destruct (key_compare (cell_value (vol a)) (cell_value (vol b))).
Qed.

(** C3. The frame returned by [to_df] holds the coerced rows, ordered by
    score, then pct, then vol, each descending with the nulls after every
    number whatever its sign: of two rows the one that the order puts strictly
    first comes first, the null scores are at the end, and the rows that tie
    on the three keys are in the order of the input. *)
Theorem to_df_ranked_stable (ds : list (gmap string pyval)) (scan_tag : string) :
  ∃ df, to_df (PyList (PyDict <$> ds)) scan_tag = Ok df ∧
    let unsorted := coerce_columns (make_row scan_tag <$> ds) in
    let cmp := rows_compare [score; pct; vol] in
    df ≡ₚ unsorted
    ∧ (∀ i j a b, (i < j)%nat → df !! i = Some a → df !! j = Some b → cmp a b ≠ Gt)
    ∧ (∀ i j a b, df !! i = Some a → df !! j = Some b → cmp a b = Lt → (i < j)%nat)
    ∧ (∀ i j a b, (i < j)%nat → df !! i = Some a → df !! j = Some b →
         cell_value (score a) = None → cell_value (score b) = None)
    ∧ (∀ k, filter (λ r, cmp k r = Eq) df = filter (λ r, cmp k r = Eq) unsorted)
    ∧ (∀ a b, cmp a b
         = match key_compare (cell_value (score a)) (cell_value (score b)) with
           | Eq =>
               match key_compare (cell_value (pct a)) (cell_value (pct b)) with
               | Eq => key_compare (cell_value (vol a)) (cell_value (vol b))
               | c => c
               end
           | c => c
           end)
    ∧ (∀ x y, key_compare (Some x) (Some y) = xreal_compare y x)
    ∧ (∀ x, key_compare (Some x) None = Lt).
Proof.
  eexists. split; [apply to_df_records|]. cbn zeta.
  pose proof (sort_values_sorted [score; pct; vol]
                (coerce_columns (make_row scan_tag <$> ds))) as Hs.
  repeat split.
  - apply sort_values_Permutation.
  - intros i j a b Hij Hi Hj. exact (sorted_lookup _ _ i j a b Hs Hij Hi Hj).
  - intros i j a b Hi Hj. exact (sorted_strict _ _ i j a b Hs Hi Hj).
  - intros i j a b Hij Hi Hj Hnull.
    pose proof (sorted_lookup _ _ i j a b Hs Hij Hi Hj) as Hab.
    unfold not_after in Hab. rewrite rows_compare_score_pct_vol, Hnull in Hab.
    destruct (cell_value (score b)); [now elim Hab|reflexivity].
  - intros k. apply sort_values_stable.
  - apply rows_compare_score_pct_vol.
Qed.

(** C2, as the code has it. Column by column, in the order of the input, the
    canonical records are read from the raw ones as follows: [scan] is the
    scan tag; [symbol] is [symbol], else [ticker], else the empty string;
    [type] is [setup], else [type], else the scan tag; [price], [pct], [vol]
    and [pos] fall back to [current_price], [gain_pct], [latest_volume] and
    [position]; [momo] is [mom_pct], else [momo15]; [score], [dir] and [vwap]
    have no fallback; [score], [pct] and [vol] are then made numeric.  A
    [setup] that is true wins over [type]. *)
Theorem to_df_field_precedence (ds : list (gmap string pyval)) (scan_tag : string) :
  ∃ df, to_df (PyList (PyDict <$> ds)) scan_tag = Ok df ∧
    let rows := coerce_columns (make_row scan_tag <$> ds) in
    df ≡ₚ rows
    ∧ scan <$> rows = (λ _, PyStr scan_tag) <$> ds
    ∧ symbol <$> rows
      = (λ r, py_or (py_or (get r "symbol") (get r "ticker")) (PyStr "")) <$> ds
    ∧ type <$> rows
      = (λ r, py_or (py_or (get r "setup") (get r "type")) (PyStr scan_tag)) <$> ds
    ∧ price <$> rows = (λ r, py_or (get r "price") (get r "current_price")) <$> ds
    ∧ pct <$> rows = to_numeric ((λ r, py_or (get r "pct") (get r "gain_pct")) <$> ds)
    ∧ vol <$> rows = to_numeric ((λ r, py_or (get r "vol") (get r "latest_volume")) <$> ds)
    ∧ pos <$> rows = (λ r, py_or (get r "pos") (get r "position")) <$> ds
    ∧ momo <$> rows = (λ r, py_or (get r "mom_pct") (get r "momo15")) <$> ds
    ∧ score <$> rows = to_numeric ((λ r, get r "score") <$> ds)
    ∧ dir <$> rows = (λ r, get r "dir") <$> ds
    ∧ vwap <$> rows = (λ r, get r "vwap") <$> ds
    ∧ (∀ r, truthy (get r "setup") = true →
         type (make_row scan_tag r) = get r "setup").
Proof.
  eexists. split; [apply to_df_records|]. cbn zeta.
  split; [apply sort_values_Permutation|].
  rewrite score_coerce_columns, pct_coerce_columns, vol_coerce_columns.
  rewrite !other_coerce_columns by reflexivity.
  rewrite <- !list_fmap_compose.
  repeat split.
  intros r Hr. cbn [type make_row]. unfold py_or.
  rewrite Hr. cbv iota. now rewrite Hr.
Qed.

(** C5, as the code has it. In every row of the frame the [score], [pct] and
    [vol] cells are numbers: integers or floats (or the booleans of a column
    of booleans), NaN being the null and the infinities being allowed; a
    value that is no number becomes NaN, and its record is kept. *)
Theorem to_df_numeric_columns (ds : list (gmap string pyval)) (scan_tag : string) :
  ∃ df, to_df (PyList (PyDict <$> ds)) scan_tag = Ok df ∧
    let rows := coerce_columns (make_row scan_tag <$> ds) in
    df ≡ₚ rows
    ∧ length df = length ds
    ∧ Forall (λ row, is_numeric_cell (score row) = true
                     ∧ is_numeric_cell (pct row) = true
                     ∧ is_numeric_cell (vol row) = true) df
    ∧ (∀ i r, ds !! i = Some r →
         (as_number (get r "score") = None →
            score <$> rows !! i = Some (PyFloat nan))
         ∧ (as_number (py_or (get r "pct") (get r "gain_pct")) = None →
            pct <$> rows !! i = Some (PyFloat nan))
         ∧ (as_number (py_or (get r "vol") (get r "latest_volume")) = None →
            vol <$> rows !! i = Some (PyFloat nan))).
Proof.
  eexists. split; [apply to_df_records|]. cbn zeta.
  set (rows := coerce_columns (make_row scan_tag <$> ds)).
  pose proof (sort_values_Permutation [score; pct; vol] rows) as Hp.
  split; [exact Hp|]. split.
  { rewrite length_sort_values. unfold rows.
    now rewrite length_coerce_columns, length_fmap. }
  split.
  { rewrite Hp.
    pose proof (to_numeric_cells (score <$> (make_row scan_tag <$> ds))) as Hs.
    pose proof (to_numeric_cells (pct <$> (make_row scan_tag <$> ds))) as Hc.
    pose proof (to_numeric_cells (vol <$> (make_row scan_tag <$> ds))) as Hv.
    rewrite <- score_coerce_columns in Hs. rewrite <- pct_coerce_columns in Hc.
    rewrite <- vol_coerce_columns in Hv. fold rows in Hs, Hc, Hv.
    rewrite Forall_fmap in Hs, Hc, Hv.
    rewrite Forall_forall in *. intros row Hrow.
    repeat split; [apply Hs|apply Hc|apply Hv]; exact Hrow. }
  intros i r Hi. rewrite <- !list_lookup_fmap. unfold rows.
  rewrite score_coerce_columns, pct_coerce_columns, vol_coerce_columns.
  repeat split; intros Hn; apply to_numeric_coerces with (2 := Hn);
    rewrite <- list_fmap_compose, list_lookup_fmap, Hi; reflexivity.
Qed.

(** C10. The fallbacks of [make_row] are those of [or]: a first key that is
    present with a false value (zero, the empty string, [None]) gives way to
    the next one just as a missing key does. *)
Theorem fallback_on_falsy (r : gmap string pyval) (scan_tag : string) :
  (truthy (PyInt 0) = false ∧ truthy (PyFloat 0) = false
   ∧ truthy (PyStr "") = false ∧ truthy PyNone = false)
  ∧ (∀ primary fallback column,
       (primary, fallback, column) ∈ fallback_pairs →
       truthy (get r primary) = false →
       column (make_row scan_tag r) = get r fallback)
  ∧ (truthy (get r "symbol") = false →
       symbol (make_row scan_tag r) = py_or (get r "ticker") (PyStr ""))
  ∧ (truthy (get r "setup") = false →
       type (make_row scan_tag r) = py_or (get r "type") (PyStr scan_tag))
  ∧ to_df (PyList [PyDict {[ "pct" := PyInt 0; "gain_pct" := PyFloat 1 ]}]) scan_tag
    = Ok [ {| scan := PyStr scan_tag; symbol := PyStr ""; score := PyFloat nan;
              type := PyStr scan_tag; price := PyNone; pct := PyFloat 1;
              vol := PyFloat nan; dir := PyNone; vwap := PyNone; pos := PyNone;
              momo := PyNone |} ]
  ∧ to_df (PyList [PyDict {[ "symbol" := PyStr ""; "ticker" := PyStr "XYZ" ]}]) scan_tag
    = Ok [ {| scan := PyStr scan_tag; symbol := PyStr "XYZ"; score := PyFloat nan;
              type := PyStr scan_tag; price := PyNone; pct := PyFloat nan;
              vol := PyFloat nan; dir := PyNone; vwap := PyNone; pos := PyNone;
              momo := PyNone |} ].
Proof.
  split; [repeat split|]. split.
  { intros primary fallback column Hin Hf. unfold fallback_pairs in Hin.
    repeat (apply elem_of_cons in Hin as [Hin|Hin];
            [injection Hin as -> -> ->;
             cbn [price pct vol pos momo make_row]; unfold py_or; now rewrite Hf|]).
    now apply elem_of_nil in Hin. }
  split. { intros Hf. cbn [symbol make_row]. unfold py_or at 2. now rewrite Hf. }
  split. { intros Hf. cbn [type make_row]. unfold py_or at 2. now rewrite Hf. }
  split.
  - change (PyList [PyDict {[ "pct" := PyInt 0; "gain_pct" := PyFloat 1 ]}])
      with (PyList (PyDict <$> [({[ "pct" := PyInt 0; "gain_pct" := PyFloat 1 ]} : gmap string pyval)])).
    rewrite to_df_records. vm_compute. reflexivity.
  - change (PyList [PyDict {[ "symbol" := PyStr ""; "ticker" := PyStr "XYZ" ]}])
      with (PyList (PyDict <$> [({[ "symbol" := PyStr ""; "ticker" := PyStr "XYZ" ]} : gmap string pyval)])).
    rewrite to_df_records. vm_compute. reflexivity.
Qed.

End to_df_facts.

(** C2, counterexample. A record that carries both [type] and [setup] gets
    the value of [setup] as its canonical type, and its raw [momo] is not
    read. *)
Lemma type_takes_setup_first :
  to_df (H := digits_runtime)
    (PyList [PyDict {[ "type" := PyStr "gap"; "setup" := PyStr "breakout";
                       "momo" := PyFloat 3.5 ]}]) "AM"
  = Ok [ {| scan := PyStr "AM"; symbol := PyStr ""; score := PyFloat nan;
            type := PyStr "breakout"; price := PyNone; pct := PyFloat nan;
            vol := PyFloat nan; dir := PyNone; vwap := PyNone; pos := PyNone;
            momo := PyNone |} ].
Proof. vm_compute. reflexivity. Qed.

(** C5, counterexample. A score that is infinite (JSON [Infinity], or a
    literal such as [1e999]) stays infinite: it is neither finite nor null. *)
Lemma infinite_score_is_kept :
  to_df (H := digits_runtime) (PyList [PyDict {[ "score" := PyFloat infinity ]}]) "AM"
  = Ok [ {| scan := PyStr "AM"; symbol := PyStr ""; score := PyFloat infinity;
            type := PyStr "AM"; price := PyNone; pct := PyFloat nan;
            vol := PyFloat nan; dir := PyNone; vwap := PyNone; pos := PyNone;
            momo := PyNone |} ]
  ∧ is_finite infinity = false
  ∧ is_nan infinity = false.
Proof. repeat split; vm_compute; reflexivity. Qed.

Lemma fallback_on_falsy_witness :
  pct (make_row "AM" {[ "pct" := PyInt 0; "gain_pct" := PyFloat 1 ]}) = PyFloat 1
  ∧ symbol (make_row "AM" {[ "symbol" := PyStr ""; "ticker" := PyStr "XYZ" ]}) = PyStr "XYZ".
Proof.
  split.
  - destruct (fallback_on_falsy (H := digits_runtime)
                {[ "pct" := PyInt 0; "gain_pct" := PyFloat 1 ]} "AM")
      as (_ & Hpairs & _).
    rewrite (Hpairs "pct" "gain_pct" pct); [reflexivity| |reflexivity].
    apply elem_of_cons. right. apply elem_of_cons. left. reflexivity.
  - destruct (fallback_on_falsy (H := digits_runtime)
                {[ "symbol" := PyStr ""; "ticker" := PyStr "XYZ" ]} "AM")
      as (_ & _ & Hsym & _).
    rewrite Hsym; reflexivity.
Defined.

(** ** [df_all] *)

(** C4. The table is the concatenation of the frames cut after [max_rows]
    rows: it is a prefix of the frames put one after the other, each in its
    own order, and its length is the smaller of the total and [max_rows]. *)
Theorem df_all_concat_truncate (frames : list DataFrame) (max_rows : Z) :
  0 ≤ max_rows →
  df_all frames max_rows `prefix_of` mjoin frames
  ∧ (∀ a b c d, frames = [a; b; c; d] →
       df_all frames max_rows = take (Z.to_nat max_rows) (a ++ b ++ c ++ d))
  ∧ Z.of_nat (length (df_all frames max_rows))
    = Z.min (Z.of_nat (sum_list (length <$> frames))) max_rows.
Proof.
  intros Hn. unfold df_all, head, concat.
  destruct (Z.leb_spec 0 max_rows) as [_|Hneg]; [|lia].
  split; [apply prefix_take|]. split.
  - intros a b c d ->. cbn. now rewrite app_nil_r.
  - rewrite length_take, length_join. lia.
Qed.

Lemma df_all_concat_truncate_witness :
  0 ≤ 3
  ∧ df_all [[abc_row]; []; [abc_row_no_dir; abc_row]; [abc_row_no_dir]] 3
    = [abc_row; abc_row_no_dir; abc_row].
Proof.
  split; [lia|].
  destruct (df_all_concat_truncate
              [[abc_row]; []; [abc_row_no_dir; abc_row]; [abc_row_no_dir]] 3)
    as (_ & Hfour & _); [lia|].
  rewrite (Hfour _ _ _ _ eq_refl). reflexivity.
Defined.

(** ** The digest *)

Lemma append_assoc (s1 s2 s3 : string) : (s1 +:+ s2) +:+ s3 = s1 +:+ (s2 +:+ s3).
Proof.
  induction s1 as [|c s1 IH]; [reflexivity|].
  change (String c ((s1 +:+ s2) +:+ s3) = String c (s1 +:+ s2 +:+ s3)).
  now f_equal.
Qed.

Lemma truthy_str (s : string) : truthy (PyStr s) = false ↔ s = "".
Proof.
  cbn. rewrite negb_false_iff. apply String.eqb_eq.
Qed.

Section digest.
Context `{Runtime}.

(** C6. A row whose direction is a non-empty string gives the line
    [{symbol} ${price} [{dir}]  Score:{score}  Δ%:{pct}  ({scan})]; without a
    direction, or with an empty one, the brackets are left out; the record of
    the example gives the line of the example. *)
Theorem text_line_shape (r : row) :
  (∀ d, dir r = PyStr d → d ≠ "" →
     text_line r
     = Ok (py_str (symbol r) +:+ " $" +:+ py_str (price r) +:+ " [" +:+ d
           +:+ "]  Score:" +:+ py_str (score r) +:+ "  Δ%:" +:+ py_str (pct r)
           +:+ "  (" +:+ py_str (scan r) +:+ ")"))
  ∧ (dir r = PyNone ∨ dir r = PyStr "" →
     text_line r
     = Ok (py_str (symbol r) +:+ " $" +:+ py_str (price r) +:+ " "
           +:+ "  Score:" +:+ py_str (score r) +:+ "  Δ%:" +:+ py_str (pct r)
           +:+ "  (" +:+ py_str (scan r) +:+ ")"))
  ∧ text_line abc_row = Ok "ABC $12.5 [up]  Score:5  Δ%:2.1  (AM)"
  ∧ text_line abc_row_no_dir = Ok "ABC $12.5   Score:5  Δ%:2.1  (AM)".
Proof.
  split; [|split; [|split; vm_compute; reflexivity]].
  - intros d Hd Hne. unfold text_line. rewrite Hd. unfold py_or.
    assert (Ht : truthy (PyStr d) = true).
    { destruct (truthy (PyStr d)) eqn:E; [reflexivity|].
      now apply truthy_str in E. }
    rewrite Ht. cbv iota. rewrite Ht.
    unfold mbind, result_bind. rewrite !append_assoc. reflexivity.
  - intros [Hd|Hd]; unfold text_line; rewrite Hd; reflexivity.
Qed.

(** ** [human_int] *)

(** C9. [M] from one million on, [k] from one thousand on, the integer part
    below; the three examples, and the values at the two thresholds. *)
Theorem human_int_suffixes :
  human_int (PyInt 1200000) = "1.2M"
  ∧ human_int (PyInt 1500) = "1.5k"
  ∧ human_int (PyInt 999) = "999"
  ∧ human_int (PyFloat 1200000) = "1.2M"
  ∧ human_int (PyFloat 1500) = "1.5k"
  ∧ human_int (PyFloat 999) = "999"
  ∧ human_int (PyInt 1000000) = "1.0M"
  ∧ human_int (PyInt 999999) = "1000.0k"
  ∧ human_int (PyInt 1000) = "1.0k"
  ∧ (∀ x f, py_float x = Ok f →
       ((1000000 <=? f)%float = true →
          human_int x = format_1f (f / 1000000) +:+ "M")
       ∧ ((1000000 <=? f)%float = false → (1000 <=? f)%float = true →
          human_int x = format_1f (f / 1000) +:+ "k")
       ∧ ((1000000 <=? f)%float = false → (1000 <=? f)%float = false →
          ∀ i, float_to_int f = Ok i → human_int x = pretty i)).
Proof.
  do 9 (split; [vm_compute; reflexivity|]).
  intros x f Hf. unfold human_int. rewrite Hf. split; [|split].
  - intros Hm. now rewrite Hm.
  - intros Hm Hk. now rewrite Hm, Hk.
  - intros Hm Hk i Hi. now rewrite Hm, Hk, Hi.
Qed.

End digest.

(** ** [fetch_json] *)

(** C7. [fetch_json] returns a value on every source and in every world; the
    empty source, a failed or refused request, a missing file, an unreadable
    file and a body that is no JSON all give the empty list. *)
Theorem fetch_json_never_raises (w : world) (source : string) :
  (∃ v, fetch_json w source = Ok v)
  ∧ (source = "" → fetch_json w source = Ok (PyList []))
  ∧ (startswith (lower source) "http" = true →
       let req := {| url := source; params := []; timeout := 12 |} in
       (∀ e, requests_get w req = Raise e → fetch_json w source = Ok (PyList []))
       ∧ (∀ r, requests_get w req = Ok r → status_code r ≠ 200 →
            fetch_json w source = Ok (PyList []))
       ∧ (∀ r e, requests_get w req = Ok r → json_loads w (text r) = Raise e →
            fetch_json w source = Ok (PyList []))
       ∧ (∀ r v, requests_get w req = Ok r → status_code r = 200 →
            json_loads w (text r) = Ok v → fetch_json w source = Ok v))
  ∧ (source ≠ "" → startswith (lower source) "http" = false →
       (path_exists w source = false → fetch_json w source = Ok (PyList []))
       ∧ (∀ e, read_file w source = Raise e → fetch_json w source = Ok (PyList []))
       ∧ (∀ f e, read_file w source = Ok f → json_loads w f = Raise e →
            fetch_json w source = Ok (PyList []))
       ∧ (∀ f v, path_exists w source = true → read_file w source = Ok f →
            json_loads w f = Ok v → fetch_json w source = Ok v)).
Proof.
  destruct (truthy (PyStr source)) eqn:Hs.
  2: { apply truthy_str in Hs. subst source.
       split; [eexists; reflexivity|]. split; [reflexivity|].
       split; [intros Hu; vm_compute in Hu; discriminate Hu|].
       intros Hne. now elim Hne. }
  unfold fetch_json. rewrite Hs. cbn [negb].
  split; [|split; [intros ->; discriminate Hs|split]].
  - destruct (startswith (lower source) "http").
    + destruct (requests_get w _) as [r|e]; cbn; [|eexists; reflexivity].
      destruct (negb (status_code r =? 200)); cbn; [eexists; reflexivity|].
      destruct (json_loads w (text r)); cbn; eexists; reflexivity.
    + destruct (path_exists w source); [|eexists; reflexivity].
      destruct (read_file w source) as [f|e]; cbn; [|eexists; reflexivity].
      destruct (json_loads w f); cbn; eexists; reflexivity.
  - intros Hu. rewrite Hu. cbn zeta. repeat split.
    + intros e He. now rewrite He.
    + intros r Hr Hst. rewrite Hr. cbn.
      apply Z.eqb_neq in Hst. now rewrite Hst.
    + intros r e Hr He. rewrite Hr. cbn.
      destruct (negb (status_code r =? 200)); cbn; [reflexivity|now rewrite He].
    + intros r v Hr Hst Hv. rewrite Hr. cbn.
      apply Z.eqb_eq in Hst. now rewrite Hst, Hv.
  - intros _ Hu. rewrite Hu. repeat split.
    + intros Hp. now rewrite Hp.
    + intros e He. destruct (path_exists w source); [|reflexivity]. now rewrite He.
    + intros f e Hf He. destruct (path_exists w source); [|reflexivity].
      rewrite Hf. cbn. now rewrite He.
    + intros f v Hp Hf Hv. rewrite Hp, Hf. cbn. now rewrite Hv.
Qed.

(** ** The "Send to Telegram" block *)

Section push.
Context `{Runtime}.

(** C8, as the code has it. The credentials are checked first: when one of
    them is missing the block reports that error, whatever the table holds.
    With both credentials and an empty table it gives the warning "nothing to
    send".  It issues no request on an empty table, and a request it issues
    comes from a table with rows and from both credentials. *)
Theorem send_needs_rows (w : world) (token chat : string) (df : DataFrame) (push_n : Z) :
  let out := send_to_telegram w token chat df push_n in
  (df = [] → out.1 = [])
  ∧ (df = [] → token ≠ "" → chat ≠ "" →
       out = ([], Ok NothingToSend) ∧ level_of NothingToSend = Warning)
  ∧ (token = "" ∨ chat = "" →
       out = ([], Ok MissingCredentials) ∧ level_of MissingCredentials = Error)
  ∧ (out.1 ≠ [] → df ≠ [] ∧ token ≠ "" ∧ chat ≠ "").
Proof.
  cbn zeta. unfold send_to_telegram.
  destruct (truthy (PyStr token)) eqn:Ht; cbn [negb orb].
  2: { apply truthy_str in Ht. subst token.
       split; [reflexivity|]. split; [intros _ Hne; now elim Hne|].
       split; [intros _; split; reflexivity|]. intros Hne. now elim Hne. }
  destruct (truthy (PyStr chat)) eqn:Hc; cbn [negb].
  2: { apply truthy_str in Hc. subst chat.
       split; [reflexivity|]. split; [intros _ _ Hne; now elim Hne|].
       split; [intros _; split; reflexivity|]. intros Hne. now elim Hne. }
  assert (Hnt : token ≠ "") by (intros ->; discriminate Ht).
  assert (Hnc : chat ≠ "") by (intros ->; discriminate Hc).
  split; [intros ->; reflexivity|].
  split; [intros -> _ _; split; reflexivity|].
  split; [intros [->| ->]; [now elim Hnt|now elim Hnc]|].
  intros Hreq. repeat split; try assumption.
  intros ->. now elim Hreq.
Qed.

End push.

(** C8, counterexample. With no credentials and an empty table the block
    shows the missing-credentials error, not the warning. *)
Lemma empty_table_without_credentials :
  send_to_telegram (H := digits_runtime) offline "" "" [] 20 = ([], Ok MissingCredentials)
  ∧ level_of MissingCredentials = Error.
Proof. split; reflexivity. Qed.

(** ** Closed instances *)

(** A URL whose host cannot be reached gives the empty list. *)
Lemma fetch_json_never_raises_witness :
  startswith (lower "http://bad-host/x") "http" = true
  ∧ fetch_json offline "http://bad-host/x" = Ok (PyList []).
Proof.
  split; [reflexivity|].
  destruct (fetch_json_never_raises offline "http://bad-host/x") as (_ & _ & Hurl & _).
  destruct (Hurl eq_refl) as (Hfail & _).
  exact (Hfail ConnectionError eq_refl).
Defined.

(** With both credentials and an empty table: the warning, and no request. *)
Lemma send_needs_rows_witness :
  send_to_telegram (H := digits_runtime) offline "123:abc" "42" [] 20
  = ([], Ok NothingToSend).
Proof.
  destruct (send_needs_rows (H := digits_runtime) offline "123:abc" "42" [] 20)
    as (_ & Hwarn & _).
  destruct Hwarn as (Hout & _); [reflexivity|discriminate|discriminate|].
  exact Hout.
Defined.

(** The line of the example record, read off the general shape. *)
Lemma text_line_shape_witness :
  text_line (H := digits_runtime) abc_row = Ok "ABC $12.5 [up]  Score:5  Δ%:2.1  (AM)".
Proof.
  destruct (text_line_shape (H := digits_runtime) abc_row) as (Hdir & _).
  rewrite (Hdir "up" eq_refl); [reflexivity|discriminate].
Defined.

(** Two and a half million shares. *)
Lemma human_int_suffixes_witness :
  human_int (H := digits_runtime) (PyInt 2500000) = "2.5M".
Proof.
  destruct (human_int_suffixes (H := digits_runtime)) as (_ & _ & _ & _ & _ & _ & _ & _ & _ & Hgen).
  destruct (Hgen (PyInt 2500000) 2500000%float eq_refl) as (HM & _).
  rewrite HM; reflexivity.
Defined.

(** The example of the specification: the string volume is read as a number,
    the second record takes its symbol from [ticker] and its type from
    [setup], and the null score goes last. *)
Example to_df_two_records :
  to_df (H := digits_runtime)
    (PyList [PyDict {[ "ticker" := PyStr "XYZ"; "setup" := PyStr "breakout";
                       "score" := PyNone; "gain_pct" := PyFloat 1 ]};
             PyDict {[ "symbol" := PyStr "ABC"; "score" := PyInt 5;
                       "pct" := PyFloat 2.1; "vol" := PyStr "1200000" ]}]) "AM"
  = Ok [ {| scan := PyStr "AM"; symbol := PyStr "ABC"; score := PyFloat 5;
            type := PyStr "AM"; price := PyNone; pct := PyFloat 2.1;
            vol := PyFloat 1200000; dir := PyNone; vwap := PyNone; pos := PyNone;
            momo := PyNone |};
         {| scan := PyStr "AM"; symbol := PyStr "XYZ"; score := PyFloat nan;
            type := PyStr "breakout"; price := PyNone; pct := PyFloat 1;
            vol := PyFloat nan; dir := PyNone; vwap := PyNone; pos := PyNone;
            momo := PyNone |} ].
Proof. vm_compute. reflexivity. Qed.

(** * Further properties *)

(** ** [to_df] on values that are not lists of records *)

Lemma for_each_record_row_raises (scan_tag : string) (l : list pyval) :
  forallb is_dict l = false →
  for_each (record_row scan_tag) l = Raise AttributeError.
Proof.
  induction l as [|v l IH]; [discriminate|].
  cbn [forallb for_each]. intros E.
  destruct v; try reflexivity.
  cbn in E. rewrite (IH E). reflexivity.
Qed.

Lemma forallb_is_dict (l : list pyval) :
  forallb is_dict l = true → ∃ ds, l = PyDict <$> ds.
Proof.
  induction l as [|v l IH]; [now exists []|].
  cbn [forallb]. intros E. apply andb_prop in E as [Ev El].
  destruct (IH El) as [ds ->]. destruct v; try discriminate.
  now exists (d :: ds).
Qed.

Section to_df_errors.
Context `{Runtime}.

(** X1. On a list, [to_df] succeeds exactly when every item is a dictionary,
    and then keeps one row per item; one item of another kind makes it raise
    [AttributeError]. *)
Theorem to_df_list_outcome (l : list pyval) (scan_tag : string) :
  if forallb is_dict l
  then ∃ df, to_df (PyList l) scan_tag = Ok df ∧ length df = length l
  else to_df (PyList l) scan_tag = Raise AttributeError.
Proof.
  destruct (forallb is_dict l) eqn:E.
  - destruct (forallb_is_dict l E) as [ds ->].
    eexists. split; [apply to_df_records|].
    now rewrite length_sort_values, length_coerce_columns, !length_fmap.
  - destruct l as [|v l]; [discriminate|].
    unfold to_df. cbn [truthy negb iterate].
    unfold mbind at 1, result_bind at 1.
    now rewrite for_each_record_row_raises.
Qed.

(** X2. Outside the lists: every false value ([None], zero, the empty string,
    the empty dictionary) gives the empty frame; a JSON object that is not
    empty and a string that is not empty raise [AttributeError]; a number or
    a boolean that is true raises [TypeError]. *)
Theorem to_df_not_a_list (v : pyval) (scan_tag : string) :
  (truthy v = false → to_df v scan_tag = Ok [])
  ∧ (∀ d, v = PyDict d → size d ≠ 0%nat → to_df v scan_tag = Raise AttributeError)
  ∧ (∀ s, v = PyStr s → s ≠ "" → to_df v scan_tag = Raise AttributeError)
  ∧ (truthy v = true → is_numeric_cell v = true → to_df v scan_tag = Raise TypeError).
Proof.
  split; [|split; [|split]].
  - intros Hf. unfold to_df. now rewrite Hf.
  - intros d -> Hd. unfold to_df.
    assert (Ht : truthy (PyDict d) = true).
    { cbn. now rewrite bool_decide_eq_false_2. }
    rewrite Ht. cbn [negb iterate].
    destruct (map_to_list d) as [|[k x] kvs] eqn:Ekv.
    + apply map_to_list_empty_iff in Ekv. subst d. now elim Hd.
    + reflexivity.
  - intros s -> Hs. unfold to_df.
    assert (Ht : truthy (PyStr s) = true).
    { destruct (truthy (PyStr s)) eqn:E; [reflexivity|]. now apply truthy_str in E. }
    rewrite Ht. cbn [negb iterate].
    destruct s as [|c s]; [now elim Hs|reflexivity].
  - intros Ht Hn. unfold to_df. rewrite Ht.
    destruct v; try discriminate; reflexivity.
Qed.

End to_df_errors.

Lemma to_df_not_a_list_witness :
  to_df (H := digits_runtime) (PyDict {[ "error" := PyStr "down" ]}) "AM"
  = Raise AttributeError
  ∧ to_df (H := digits_runtime) (PyInt 7) "AM" = Raise TypeError.
Proof.
  destruct (to_df_not_a_list (H := digits_runtime) (PyDict {[ "error" := PyStr "down" ]}) "AM")
    as (_ & Hd & _).
  destruct (to_df_not_a_list (H := digits_runtime) (PyInt 7) "AM") as (_ & _ & _ & Hn).
  split; [apply (Hd _ eq_refl); vm_compute; discriminate|apply Hn; reflexivity].
Defined.

(** ** The ranking is determined by its three properties *)

Section ranking_unique.
Context {A : Type} (by_cols : list (A → pyval)).

Lemma not_after_both (x y : A) :
  not_after by_cols x y → not_after by_cols y x → rows_compare by_cols x y = Eq.
Proof.
  unfold not_after. intros Hxy Hyx. rewrite (rows_compare_antisym by_cols x y) in Hyx.
  destruct (rows_compare by_cols x y); [reflexivity|now elim Hyx|now elim Hxy].
Qed.

Lemma sorted_head_first (x y : A) (l : list A) :
  StronglySorted (not_after by_cols) (x :: l) → y ∈ x :: l → not_after by_cols x y.
Proof.
  intros Hs Hy. apply StronglySorted_inv in Hs as [_ Hx].
  apply elem_of_cons in Hy as [->|Hy].
  - unfold not_after. now rewrite rows_compare_refl.
  - rewrite Forall_forall in Hx. now apply Hx.
Qed.

(** Two sorted lists with the same rows in every class of ties are equal. *)
Lemma sorted_stable_eq (l1 l2 : list A) :
  StronglySorted (not_after by_cols) l1 →
  StronglySorted (not_after by_cols) l2 →
  (∀ k, filter (λ r, rows_compare by_cols k r = Eq) l1
        = filter (λ r, rows_compare by_cols k r = Eq) l2) →
  l1 = l2.
Proof.
  revert l2. induction l1 as [|x l1 IH]; intros l2 Hs1 Hs2 Hf.
  - destruct l2 as [|y l2]; [reflexivity|].
    specialize (Hf y). rewrite filter_cons_True in Hf by apply rows_compare_refl.
    discriminate Hf.
  - destruct l2 as [|y l2].
    { specialize (Hf x). rewrite filter_cons_True in Hf by apply rows_compare_refl.
      discriminate Hf. }
    assert (Hx : x ∈ y :: l2).
    { pose proof (Hf x) as E. rewrite filter_cons_True in E by apply rows_compare_refl.
      assert (Hin : x ∈ filter (λ r, rows_compare by_cols x r = Eq) (y :: l2)) by (rewrite <- E; left).
      now apply list_elem_of_filter in Hin as [_ Hin]. }
    assert (Hy : y ∈ x :: l1).
    { pose proof (Hf y) as E.
      rewrite (filter_cons_True _ y l2) in E by apply rows_compare_refl.
      assert (Hin : y ∈ filter (λ r, rows_compare by_cols y r = Eq) (x :: l1)) by (rewrite E; left).
      now apply list_elem_of_filter in Hin as [_ Hin]. }
    pose proof (not_after_both x y (sorted_head_first x y l1 Hs1 Hy)
                  (sorted_head_first y x l2 Hs2 Hx)) as Exy.
    pose proof (Hf x) as E.
    rewrite filter_cons_True in E by apply rows_compare_refl.
    rewrite (filter_cons_True _ y l2) in E by exact Exy.
    injection E as <- _.
    f_equal. apply IH.
    + now apply StronglySorted_inv in Hs1 as [? _].
    + now apply StronglySorted_inv in Hs2 as [? _].
    + intros k. specialize (Hf k). rewrite !(filter_cons _ x) in Hf.
      destruct (decide (rows_compare by_cols k x = Eq)); [now injection Hf|exact Hf].
Qed.

End ranking_unique.

Section to_df_invariants.
Context `{Runtime}.

(** X3. The order of [to_df] is the only one that is sorted on the three keys
    and keeps the ties in the order of the input: a frame with these two
    properties is the frame that [to_df] returns. *)
Theorem to_df_order_unique (ds : list (gmap string pyval)) (scan_tag : string)
    (df : DataFrame) :
  StronglySorted (not_after [score; pct; vol]) df →
  (∀ k, filter (λ r, rows_compare [score; pct; vol] k r = Eq) df
        = filter (λ r, rows_compare [score; pct; vol] k r = Eq)
            (coerce_columns (make_row scan_tag <$> ds))) →
  to_df (PyList (PyDict <$> ds)) scan_tag = Ok df.
Proof.
  intros Hs Hf. rewrite to_df_records. f_equal. symmetry.
  apply (sorted_stable_eq [score; pct; vol]); [exact Hs|apply sort_values_sorted|].
  intros k. rewrite Hf. symmetry. apply sort_values_stable.
Qed.

Lemma py_or_falsy (a b : pyval) : truthy (py_or a b) = false → py_or a b = b.
Proof. unfold py_or. destruct (truthy a) eqn:E; [congruence|reflexivity]. Qed.

(** X4. In every row that [to_df] returns the scan is the scan tag, the symbol
    is a true value or the empty string, and the type is a true value or the
    scan tag: neither is ever [None]. *)
Theorem to_df_symbol_and_type (ds : list (gmap string pyval)) (scan_tag : string) :
  ∃ df, to_df (PyList (PyDict <$> ds)) scan_tag = Ok df ∧
    Forall (λ row, scan row = PyStr scan_tag
                   ∧ (truthy (symbol row) = true ∨ symbol row = PyStr "")
                   ∧ (truthy (type row) = true ∨ type row = PyStr scan_tag)) df.
Proof.
  eexists. split; [apply to_df_records|].
  rewrite sort_values_Permutation.
  set (rows := coerce_columns (make_row scan_tag <$> ds)).
  assert (Hscan : scan <$> rows = scan <$> (make_row scan_tag <$> ds))
    by now apply other_coerce_columns.
  assert (Hsym : symbol <$> rows = symbol <$> (make_row scan_tag <$> ds))
    by now apply other_coerce_columns.
  assert (Htyp : type <$> rows = type <$> (make_row scan_tag <$> ds))
    by now apply other_coerce_columns.
  apply Forall_lookup. intros i x Hi.
  assert (Hget : ∀ proj : row → pyval,
            proj <$> rows = proj <$> (make_row scan_tag <$> ds) →
            ∃ d, proj x = proj (make_row scan_tag d)).
  { intros proj E. apply (f_equal (λ l, l !! i)) in E.
    rewrite !list_lookup_fmap, Hi in E. cbn in E.
    destruct (ds !! i) as [d|]; [|discriminate]. exists d. cbn in E. congruence. }
  destruct (Hget scan Hscan) as [d1 E1], (Hget symbol Hsym) as [d2 E2],
    (Hget type Htyp) as [d3 E3].
  rewrite E1, E2, E3. cbn [scan symbol type make_row]. repeat split.
  - destruct (truthy (py_or (py_or (get d2 "symbol") (get d2 "ticker")) (PyStr ""))) eqn:E;
      [now left|right; now apply py_or_falsy].
  - destruct (truthy (py_or (py_or (get d3 "setup") (get d3 "type")) (PyStr scan_tag))) eqn:E;
      [now left|right; now apply py_or_falsy].
Qed.

End to_df_invariants.

Lemma to_df_order_unique_witness :
  to_df (H := digits_runtime)
    (PyList (PyDict <$> [ {[ "symbol" := PyStr "ABC"; "score" := PyInt 9 ]};
                          {[ "symbol" := PyStr "XYZ"; "score" := PyInt 5 ]} ])) "AM"
  = Ok (coerce_columns (H := digits_runtime)
          (make_row "AM" <$> [ {[ "symbol" := PyStr "ABC"; "score" := PyInt 9 ]};
                               {[ "symbol" := PyStr "XYZ"; "score" := PyInt 5 ]} ])).
Proof.
  apply (to_df_order_unique (H := digits_runtime)); [|reflexivity].
  repeat constructor; vm_compute; discriminate.
Defined.

(** ** [extract_options] and the options tab *)

Lemma extract_options_list (l : list pyval) :
  extract_options (PyList l)
  = (entries ← for_each option_entry l; Ok (omap (M := list) id entries)).
Proof. destruct l; reflexivity. Qed.

Lemma option_entry_dict (d : gmap string pyval) :
  if has_options d
  then ∃ opt, get d "options" = PyDict opt
         ∧ option_entry (PyDict d)
           = Ok (Some {| o_symbol := get_or d "symbol" (PyStr "");
                         o_type := get opt "type";
                         options_ticker := get opt "options_ticker";
                         strike := get opt "strike";
                         expiration := get opt "expiration";
                         bid := get opt "bid";
                         ask := get opt "ask";
                         mid := get opt "mid";
                         buy_min := get opt "buy_min";
                         buy_max := get opt "buy_max";
                         target := get opt "target";
                         stop := get opt "stop" |})
  else option_entry (PyDict d) = Ok None.
Proof.
  unfold has_options, option_entry.
  destruct (get d "options") as [|b|z|f|s|l|o] eqn:E;
    try (unfold py_or; cbv zeta;
         match type of E with _ = ?v => destruct (truthy v) eqn:Et end;
         rewrite ?Et; reflexivity).
  unfold py_or. cbv zeta. destruct (truthy (PyDict o)) eqn:Eo; [|reflexivity].
  exists o. split; [reflexivity|]. now rewrite Eo.
Qed.

Lemma for_each_option_entry (ds : list (gmap string pyval)) :
  ∃ entries, for_each option_entry (PyDict <$> ds) = Ok entries
    ∧ Forall2 reads_options (filter (λ d, has_options d = true) ds) (omap id entries).
Proof.
  induction ds as [|d ds (entries & E & Hall)]; [exists []; split; [reflexivity|constructor]|].
  pose proof (option_entry_dict d) as Hd.
  cbn [fmap list_fmap for_each]. rewrite (filter_cons _ d).
  destruct (has_options d) eqn:Eh.
  - destruct Hd as (opt & Hopt & Hd). rewrite Hd.
    unfold mbind at 1, result_bind at 1. change (list_fmap _ _ PyDict ds) with (PyDict <$> ds).
    rewrite E. eexists. split; [reflexivity|].
    destruct (decide (true = true)) as [_|Hne]; [|now elim Hne].
    cbn [omap list_omap id]. constructor; [|exact Hall].
    exists opt. cbn. repeat split; exact Hopt.
  - rewrite Hd. unfold mbind at 1, result_bind at 1.
    change (list_fmap _ _ PyDict ds) with (PyDict <$> ds).
    rewrite E. eexists. split; [reflexivity|].
    destruct (decide (false = true)) as [Hne|_]; [discriminate|]. exact Hall.
Qed.

Lemma for_each_option_entry_raises (l : list pyval) :
  forallb is_dict l = false → for_each option_entry l = Raise AttributeError.
Proof.
  induction l as [|v l IH]; [discriminate|].
  cbn [forallb for_each]. intros E.
  destruct v as [| | | | | |d]; try reflexivity.
  cbn in E. rewrite (IH E).
  pose proof (option_entry_dict d) as Hd.
  destruct (has_options d); [destruct Hd as (? & _ & ->)|rewrite Hd]; reflexivity.
Qed.

Lemma extract_options_on_records (ds : list (gmap string pyval)) :
  ∃ out, extract_options (PyList (PyDict <$> ds)) = Ok out
    ∧ Forall2 reads_options (filter (λ d, has_options d = true) ds) out.
Proof.
  destruct (for_each_option_entry ds) as (entries & E & Hall).
  exists (omap id entries). split; [|exact Hall].
  rewrite extract_options_list, E. reflexivity.
Qed.

(** X5. On a list of records [extract_options] returns one row for every
    record whose [options] is a dictionary that is not empty, in the order of
    the records; the row takes its symbol from the record (the empty string
    when the key is missing) and its eleven other cells from the options.
    Records without options, or with options of another kind, give no row. *)
Theorem extract_options_rows (ds : list (gmap string pyval)) :
  ∃ out, extract_options (PyList (PyDict <$> ds)) = Ok out
    ∧ Forall2 reads_options (filter (λ d, has_options d = true) ds) out
    ∧ (length out ≤ length ds)%nat.
Proof.
  destruct (extract_options_on_records ds) as (out & Hout & Hall).
  exists out. split; [exact Hout|]. split; [exact Hall|].
  rewrite <- (Forall2_length _ _ _ Hall). apply length_filter.
Qed.

(** X6. [extract_options] gives no row on [None] and on every other false
    value; on a list it raises [AttributeError] as soon as one item is not a
    dictionary, and returns otherwise. *)
Theorem extract_options_edges (v : pyval) :
  (truthy v = false → extract_options v = Ok [])
  ∧ (∀ l, v = PyList l →
       if forallb is_dict l
       then ∃ out, extract_options v = Ok out ∧ (length out ≤ length l)%nat
       else extract_options v = Raise AttributeError).
Proof.
  split.
  - intros Hf. unfold extract_options, py_or. now rewrite Hf.
  - intros l ->. destruct (forallb is_dict l) eqn:E.
    + destruct (forallb_is_dict l E) as [ds ->].
      destruct (extract_options_on_records ds) as (out & Hout & Hall).
      exists out. split; [exact Hout|].
      rewrite <- (Forall2_length _ _ _ Hall), length_fmap. apply length_filter.
    + rewrite extract_options_list, for_each_option_entry_raises by exact E.
      reflexivity.
Qed.

(** X7. The options table does not use the [ticker] fallback of the ranked
    table: for a record with options whose [symbol] is missing or false and
    whose [ticker] is true, [to_df]'s row shows the ticker and the option row
    shows a false symbol (the empty string when the key is missing). *)
Theorem options_symbol_has_no_fallback (d : gmap string pyval) (scan_tag : string) :
  has_options d = true →
  truthy (get d "symbol") = false →
  truthy (get d "ticker") = true →
  ∃ o, extract_options (PyList [PyDict d]) = Ok [o]
    ∧ symbol (make_row scan_tag d) = get d "ticker"
    ∧ truthy (o_symbol o) = false
    ∧ (d !! "symbol" = None → o_symbol o = PyStr "").
Proof.
  intros Hopt Hsym Htick.
  pose proof (option_entry_dict d) as Hd. rewrite Hopt in Hd.
  destruct Hd as (opt & _ & Hd).
  eexists. split; [|split; [|split]].
  - rewrite extract_options_list. cbn [for_each]. rewrite Hd. reflexivity.
  - cbn [symbol make_row]. unfold py_or. rewrite Hsym. cbv iota. now rewrite Htick.
  - cbn [o_symbol]. unfold get_or. unfold get in Hsym.
    destruct (d !! "symbol"); [exact Hsym|reflexivity].
  - intros E. cbn [o_symbol]. unfold get_or. now rewrite E.
Qed.

Lemma options_symbol_has_no_fallback_witness :
  symbol (make_row "AM" {[ "ticker" := PyStr "XYZ";
                           "options" := PyDict {[ "strike" := PyInt 5 ]} ]})
  = PyStr "XYZ".
Proof.
  destruct (options_symbol_has_no_fallback
              {[ "ticker" := PyStr "XYZ"; "options" := PyDict {[ "strike" := PyInt 5 ]} ]}
              "AM") as (o & _ & Hsym & _); [reflexivity..|].
  exact Hsym.
Defined.

Lemma filter_has_options_none (ds : list (gmap string pyval)) :
  Forall (λ d, has_options d = false) ds →
  filter (λ d, has_options d = true) ds = [].
Proof.
  induction ds as [|d ds IH]; [reflexivity|].
  intros Hf. apply Forall_cons in Hf as [Hd Hf].
  rewrite filter_cons_False by congruence. now apply IH.
Qed.

(** X8. The options tab, on four lists of records: the option rows of the
    four scans, those of the first scan first, each with the short tag of its
    scan; the note is shown exactly when no row is left, that is when no
    record of any scan has options. *)
Theorem options_tab_view (am openC lunch power : list (gmap string pyval)) :
  ∃ oa oo ol op,
    extract_options (PyList (PyDict <$> am)) = Ok oa
    ∧ extract_options (PyList (PyDict <$> openC)) = Ok oo
    ∧ extract_options (PyList (PyDict <$> lunch)) = Ok ol
    ∧ extract_options (PyList (PyDict <$> power)) = Ok op
    ∧ options_tab (PyList (PyDict <$> am)) (PyList (PyDict <$> openC))
        (PyList (PyDict <$> lunch)) (PyList (PyDict <$> power))
      = Ok (match ((λ o, ("08:00", o)) <$> oa) ++ ((λ o, ("10:00", o)) <$> oo)
                  ++ ((λ o, ("13:45", o)) <$> ol) ++ ((λ o, ("15:15", o)) <$> op) with
            | [] => OptionsInfo
            | opts => OptionsTable opts
            end)
    ∧ (oa ++ oo ++ ol ++ op = [] ↔
       Forall (λ d, has_options d = false) (am ++ openC ++ lunch ++ power)).
Proof.
  destruct (extract_options_on_records am) as (oa & Ea & Ha).
  destruct (extract_options_on_records openC) as (oo & Eo & Ho).
  destruct (extract_options_on_records lunch) as (ol & El & Hl).
  destruct (extract_options_on_records power) as (op & Ep & Hp).
  exists oa, oo, ol, op. repeat split; try assumption.
  - unfold options_tab. cbn [for_each]. rewrite Ea, Eo, El, Ep.
    unfold mbind, result_bind. cbn [options_frames].
    destruct oa, oo, ol, op; cbn; rewrite ?app_nil_r; reflexivity.
  - intros E. apply Forall2_length in Ha, Ho, Hl, Hp.
    apply (f_equal length) in E. rewrite !length_app in E. cbn in E.
    assert (Hnone : ∀ ds : list (gmap string pyval),
              length (filter (λ d, has_options d = true) ds) = 0%nat →
              Forall (λ d, has_options d = false) ds).
    { intros ds Hlen. apply Forall_forall. intros d Hd.
      destruct (has_options d) eqn:Eh; [exfalso|reflexivity].
      apply length_zero_iff_nil in Hlen.
      eapply (filter_nil_not_elem_of _ ds d Hlen); [exact Eh|exact Hd]. }
    rewrite !Forall_app. repeat split; apply Hnone; lia.
  - intros Hall. rewrite !Forall_app in Hall. destruct Hall as (H1 & H2 & H3 & H4).
    assert (Hnil : ∀ (ds : list (gmap string pyval)) (os : list option_row),
              Forall (λ d, has_options d = false) ds →
              Forall2 reads_options (filter (λ d, has_options d = true) ds) os →
              os = []).
    { intros ds os Hf Hr. apply Forall2_length in Hr.
      rewrite (filter_has_options_none ds Hf) in Hr.
      destruct os; [reflexivity|discriminate]. }
    rewrite (Hnil _ _ H1 Ha), (Hnil _ _ H2 Ho), (Hnil _ _ H3 Hl), (Hnil _ _ H4 Hp).
    reflexivity.
Qed.

(** ** Loading the four feeds *)

Lemma fetch_json_ok (w : world) (source : string) : ∃ v, fetch_json w source = Ok v.
Proof.
  unfold fetch_json. destruct (negb (truthy (PyStr source))); [eexists; reflexivity|].
  destruct (startswith (lower source) "http").
  - destruct (requests_get w _) as [r|e]; cbn; [|eexists; reflexivity].
    destruct (negb (status_code r =? 200)); cbn; [eexists; reflexivity|].
    destruct (json_loads w (text r)); cbn; eexists; reflexivity.
  - destruct (path_exists w source); [|eexists; reflexivity].
    destruct (read_file w source) as [f|e]; cbn; [|eexists; reflexivity].
    destruct (json_loads w f); cbn; eexists; reflexivity.
Qed.

Lemma fetch_json_unreachable (w : world) (source : string) :
  (∀ req, ∃ e, requests_get w req = Raise e) → (∀ p, path_exists w p = false) →
  fetch_json w source = Ok (PyList []).
Proof.
  intros Hreq Hpath. unfold fetch_json.
  destruct (negb (truthy (PyStr source))); [reflexivity|].
  destruct (startswith (lower source) "http").
  - destruct (Hreq {| url := source; params := []; timeout := 12 |}) as [e ->]. reflexivity.
  - now rewrite Hpath.
Qed.

Lemma head_nil {A} (n : Z) : head n ([] : list A) = [].
Proof. unfold head. destruct (0 <=? n); apply take_nil. Qed.

Section load.
Context `{Runtime}.

Lemma to_df_rows_scan (ds : list (gmap string pyval)) (scan_tag : string) :
  Forall (λ x, scan x = PyStr scan_tag)
    (sort_values [score; pct; vol] (coerce_columns (make_row scan_tag <$> ds))).
Proof.
  rewrite sort_values_Permutation.
  apply (Forall_fmap scan (λ v, v = PyStr scan_tag)).
  rewrite other_coerce_columns by reflexivity.
  rewrite <- list_fmap_compose. apply Forall_fmap, Forall_true. reflexivity.
Qed.

Lemma to_df_object_raises (d : gmap string pyval) (scan_tag : string) :
  size d ≠ 0%nat → to_df (PyDict d) scan_tag = Raise AttributeError.
Proof.
  intros Hd. unfold to_df.
  assert (Ht : truthy (PyDict d) = true).
  { cbn. now rewrite bool_decide_eq_false_2. }
  rewrite Ht. cbn [negb iterate].
  destruct (map_to_list d) as [|[k x] kvs] eqn:Ekv; [|reflexivity].
  apply map_to_list_empty_iff in Ekv. subst d. now elim Hd.
Qed.

(** X9. When each of the four feeds delivers a list of records, the table is
    the four ranked frames one after the other, cut after [max_rows] rows: no
    exception, a length of the smaller of the number of records and
    [max_rows], and in every row the tag of one of the four scans. *)
Theorem load_data_arrays (w : world) (AM_URL OPEN_URL LUNCH_URL POWER_URL : string)
    (max_rows : Z) (am openC lunch power : list (gmap string pyval)) :
  fetch_json w AM_URL = Ok (PyList (PyDict <$> am)) →
  fetch_json w OPEN_URL = Ok (PyList (PyDict <$> openC)) →
  fetch_json w LUNCH_URL = Ok (PyList (PyDict <$> lunch)) →
  fetch_json w POWER_URL = Ok (PyList (PyDict <$> power)) →
  ∃ df_am df_open df_lunch df_power,
    to_df (PyList (PyDict <$> am)) "08:00 Squeeze" = Ok df_am
    ∧ to_df (PyList (PyDict <$> openC)) "10:00 Confirm" = Ok df_open
    ∧ to_df (PyList (PyDict <$> lunch)) "13:45 Pattern" = Ok df_lunch
    ∧ to_df (PyList (PyDict <$> power)) "15:15 Power" = Ok df_power
    ∧ load_data w AM_URL OPEN_URL LUNCH_URL POWER_URL max_rows
      = Ok (df_all [df_am; df_open; df_lunch; df_power] max_rows)
    ∧ (0 ≤ max_rows →
       Z.of_nat (length (df_all [df_am; df_open; df_lunch; df_power] max_rows))
       = Z.min (Z.of_nat (length am + length openC + length lunch + length power))
           max_rows)
    ∧ Forall (λ x, ∃ tag, tag ∈ scan_tags ∧ scan x = PyStr tag)
        (df_all [df_am; df_open; df_lunch; df_power] max_rows).
Proof.
  intros Ea Eo El Ep.
  do 4 eexists. do 4 (split; [apply to_df_records|]).
  split; [|split].
  - unfold load_data. rewrite Ea, Eo, El, Ep. unfold mbind, result_bind.
    now rewrite !to_df_records.
  - intros Hn. unfold df_all, head, concat.
    destruct (Z.leb_spec 0 max_rows) as [_|Hneg]; [|lia].
    rewrite length_take. cbn [mjoin list_join]. rewrite !length_app, !length_sort_values,
      !length_coerce_columns, !length_fmap. cbn [length]. lia.
  - assert (Hall : Forall (λ x, ∃ tag, tag ∈ scan_tags ∧ scan x = PyStr tag)
              (concat [sort_values [score; pct; vol]
                         (coerce_columns (make_row "08:00 Squeeze" <$> am));
                       sort_values [score; pct; vol]
                         (coerce_columns (make_row "10:00 Confirm" <$> openC));
                       sort_values [score; pct; vol]
                         (coerce_columns (make_row "13:45 Pattern" <$> lunch));
                       sort_values [score; pct; vol]
                         (coerce_columns (make_row "15:15 Power" <$> power))])).
    { unfold concat. cbn [mjoin list_join]. rewrite !Forall_app. repeat split;
        try apply Forall_nil_2;
        (eapply Forall_impl; [apply to_df_rows_scan|]);
        intros x Hx; eexists; (split; [|exact Hx]); unfold scan_tags;
        rewrite !elem_of_cons; auto 6. }
    unfold df_all, head. destruct (0 <=? max_rows); now apply Forall_take.
Qed.

(** X10. When no request gets through and no file exists the table is empty,
    whatever the four sources and the row limit are. *)
Theorem load_data_nothing_reachable (w : world)
    (AM_URL OPEN_URL LUNCH_URL POWER_URL : string) (max_rows : Z) :
  (∀ req, ∃ e, requests_get w req = Raise e) →
  (∀ p, path_exists w p = false) →
  load_data w AM_URL OPEN_URL LUNCH_URL POWER_URL max_rows = Ok [].
Proof.
  intros Hreq Hpath. unfold load_data.
  rewrite !(fetch_json_unreachable w _ Hreq Hpath).
  unfold mbind, result_bind. cbn [to_df truthy negb].
  unfold df_all, concat. cbn [mjoin list_join app]. now rewrite head_nil.
Qed.

(** X11. A feed that delivers a JSON object that is not empty, where a list is
    expected, ends the loading with [AttributeError]: [fetch_json] hands the
    object on, and [to_df] cannot read it. *)
Theorem load_data_object_feed (w : world) (AM_URL OPEN_URL LUNCH_URL POWER_URL : string)
    (max_rows : Z) (d : gmap string pyval) :
  fetch_json w AM_URL = Ok (PyDict d) →
  size d ≠ 0%nat →
  load_data w AM_URL OPEN_URL LUNCH_URL POWER_URL max_rows = Raise AttributeError.
Proof.
  intros Ea Hd. unfold load_data. rewrite Ea.
  destruct (fetch_json_ok w OPEN_URL) as [vo ->].
  destruct (fetch_json_ok w LUNCH_URL) as [vl ->].
  destruct (fetch_json_ok w POWER_URL) as [vp ->].
  unfold mbind, result_bind. now rewrite to_df_object_raises.
Qed.

End load.

Lemma load_data_arrays_witness :
  load_data (H := digits_runtime) morning_file
    "am_runners.json" "open_confirm.json" "lunch_patterns.json" "power_hour.json" 200
  = Ok [ {| scan := PyStr "08:00 Squeeze"; symbol := PyStr "XYZ"; score := PyInt 9;
            type := PyStr "08:00 Squeeze"; price := PyNone; pct := PyFloat nan;
            vol := PyFloat nan; dir := PyNone; vwap := PyNone; pos := PyNone;
            momo := PyNone |};
         {| scan := PyStr "08:00 Squeeze"; symbol := PyStr "ABC"; score := PyInt 5;
            type := PyStr "08:00 Squeeze"; price := PyNone; pct := PyFloat nan;
            vol := PyFloat nan; dir := PyNone; vwap := PyNone; pos := PyNone;
            momo := PyNone |} ].
Proof.
  destruct (load_data_arrays (H := digits_runtime) morning_file
              "am_runners.json" "open_confirm.json" "lunch_patterns.json" "power_hour.json"
              200
              [ {[ "symbol" := PyStr "ABC"; "score" := PyInt 5 ]};
                {[ "ticker" := PyStr "XYZ"; "score" := PyInt 9 ]} ] [] [] [])
    as (df_am & df_open & df_lunch & df_power & Ha & Ho & El & Ep & Hload & _);
    [reflexivity..|].
  rewrite Hload.
  vm_compute in Ha, Ho, El, Ep.
  injection Ha as <-. injection Ho as <-. injection El as <-. injection Ep as <-.
  vm_compute. reflexivity.
Defined.

Lemma load_data_nothing_reachable_witness :
  load_data (H := digits_runtime) offline
    "https://feeds.example/am.json" "open_confirm.json" "" "power_hour.json" 200
  = Ok [].
Proof.
  apply (load_data_nothing_reachable (H := digits_runtime)).
  - intros req. exists ConnectionError. reflexivity.
  - reflexivity.
Defined.

Lemma load_data_object_feed_witness :
  load_data (H := digits_runtime) object_feed
    "https://feeds.example/am.json" "open_confirm.json" "lunch_patterns.json"
    "power_hour.json" 200
  = Raise AttributeError.
Proof.
  apply (load_data_object_feed (H := digits_runtime) object_feed _ _ _ _ _
           {[ "error" := PyStr "down" ]}).
  - reflexivity.
  - vm_compute. discriminate.
Defined.

(** ** Sending the digest *)

Section sending.
Context `{Runtime}.

Lemma text_line_outcome (r : row) :
  if dir_prints r then ∃ s, text_line r = Ok s else text_line r = Raise TypeError.
Proof.
  unfold dir_prints, text_line, py_or. cbv zeta.
  destruct (dir r) as [|b|z|f|s|l|d] eqn:E;
    try (match type of E with _ = ?v => destruct (truthy v) eqn:Et end;
         cbn [negb]; rewrite ?Et; cbn [truthy String.eqb negb];
         first [reflexivity | eexists; reflexivity]).
Qed.

Lemma for_each_text_line_ok (l : list row) :
  forallb dir_prints l = true →
  ∃ lines, for_each text_line l = Ok lines ∧ length lines = length l.
Proof.
  induction l as [|r l IH]; [exists []; split; reflexivity|].
  cbn [forallb for_each]. intros E. apply andb_prop in E as [Er El].
  pose proof (text_line_outcome r) as Hr. rewrite Er in Hr. destruct Hr as [s ->].
  destruct (IH El) as (lines & -> & Hlen).
  exists (s :: lines). split; [reflexivity|]. cbn. now rewrite Hlen.
Qed.

Lemma for_each_text_line_raises (l : list row) :
  forallb dir_prints l = false → for_each text_line l = Raise TypeError.
Proof.
  induction l as [|r l IH]; [discriminate|].
  cbn [forallb for_each]. intros E.
  pose proof (text_line_outcome r) as Hr.
  destruct (dir_prints r).
  - destruct Hr as [s ->]. cbn in E. now rewrite (IH E).
  - now rewrite Hr.
Qed.

(** X12. With both credentials, a table that is not empty and directions that
    can be printed, the block issues exactly one request: to the
    [sendMessage] address of the bot, with the chat id and the digest as
    parameters and a timeout of 10.  The digest has one line per row of the
    first [push_n] rows.  The block does not raise: it reports success
    exactly on an answer with status 200, and a failed transport as
    [SendFailed]. *)
Theorem send_delivers (w : world) (token chat : string) (df : DataFrame) (push_n : Z) :
  token ≠ "" → chat ≠ "" → df ≠ [] →
  forallb dir_prints (head push_n df) = true →
  ∃ lines notice,
    for_each text_line (head push_n df) = Ok lines
    ∧ (0 ≤ push_n → length lines = Nat.min (Z.to_nat push_n) (length df))
    ∧ let req := {| url := "https://api.telegram.org/bot" +:+ token +:+ "/sendMessage";
                    params := [("chat_id", chat); ("text", msg lines)];
                    timeout := 10 |} in
      send_to_telegram w token chat df push_n = ([req], Ok notice)
      ∧ (notice = Sent ↔ ∃ resp, requests_get w req = Ok resp ∧ status_code resp = 200)
      ∧ (∀ e, requests_get w req = Raise e → notice = SendFailed e).
Proof.
  intros Ht Hc Hdf Hdir.
  destruct (for_each_text_line_ok _ Hdir) as (lines & Hlines & Hlen).
  exists lines. eexists. split; [exact Hlines|]. split.
  { intros Hn. rewrite Hlen. unfold head.
    destruct (Z.leb_spec 0 push_n) as [_|Hneg]; [apply length_take|lia]. }
  cbn zeta. unfold send_to_telegram.
  assert (Et : truthy (PyStr token) = true).
  { destruct (truthy (PyStr token)) eqn:E; [reflexivity|]. now apply truthy_str in E. }
  assert (Ec : truthy (PyStr chat) = true).
  { destruct (truthy (PyStr chat)) eqn:E; [reflexivity|]. now apply truthy_str in E. }
  rewrite Et, Ec. cbn [negb orb].
  destruct df as [|r0 df0]; [now elim Hdf|].
  rewrite Hlines. split; [reflexivity|].
  destruct (requests_get w _) as [resp|e] eqn:Er.
  - destruct (status_code resp =? 200) eqn:Es.
    + split; [|intros e He; discriminate He].
      split; [intros _|reflexivity]. exists resp. split; [reflexivity|]. now apply Z.eqb_eq.
    + split; [|intros e He; discriminate He].
      split; [discriminate|]. intros (resp' & Hr & Hs). injection Hr as <-.
      apply Z.eqb_eq in Hs. congruence.
  - split.
    + split; [discriminate|]. intros (resp' & Hr & _). discriminate Hr.
    + intros e' He. now injection He as <-.
Qed.

(** X13. A row among the first [push_n] whose direction is true and is not a
    string (a number, say) ends the block with [TypeError], before any
    request is issued. *)
Theorem send_raises_on_direction (w : world) (token chat : string) (df : DataFrame)
    (push_n : Z) :
  token ≠ "" → chat ≠ "" → df ≠ [] →
  forallb dir_prints (head push_n df) = false →
  send_to_telegram w token chat df push_n = ([], Raise TypeError).
Proof.
  intros Ht Hc Hdf Hdir. unfold send_to_telegram.
  assert (Et : truthy (PyStr token) = true).
  { destruct (truthy (PyStr token)) eqn:E; [reflexivity|]. now apply truthy_str in E. }
  assert (Ec : truthy (PyStr chat) = true).
  { destruct (truthy (PyStr chat)) eqn:E; [reflexivity|]. now apply truthy_str in E. }
  rewrite Et, Ec. cbn [negb orb].
  destruct df as [|r0 df0]; [now elim Hdf|].
  now rewrite (for_each_text_line_raises _ Hdir).
Qed.

End sending.

Lemma send_delivers_witness :
  send_to_telegram (H := digits_runtime) offline "123:abc" "42"
    [abc_row; abc_row_no_dir] 20
  = ([ {| url := "https://api.telegram.org/bot123:abc/sendMessage";
          params := [("chat_id", "42");
                     ("text", msg ["ABC $12.5 [up]  Score:5  Δ%:2.1  (AM)";
                                   "ABC $12.5   Score:5  Δ%:2.1  (AM)"])];
          timeout := 10 |} ],
     Ok (SendFailed ConnectionError)).
Proof.
  destruct (send_delivers (H := digits_runtime) offline "123:abc" "42"
              [abc_row; abc_row_no_dir] 20)
    as (lines & notice & Hlines & _ & Hsend & _ & Hfail);
    [discriminate..|reflexivity|].
  vm_compute in Hlines. injection Hlines as <-.
  rewrite Hsend. rewrite (Hfail ConnectionError eq_refl). reflexivity.
Defined.

Lemma send_raises_on_direction_witness :
  send_to_telegram (H := digits_runtime) offline "123:abc" "42"
    [abc_row; abc_row_numeric_dir] 20
  = ([], Raise TypeError).
Proof.
  apply (send_raises_on_direction (H := digits_runtime)); [discriminate..|reflexivity].
Defined.

(** ** The countdown to the next scans *)

Lemma append_nil_r (s : string) : s +:+ "" = s.
Proof.
  induction s as [|c s IH]; [reflexivity|].
  change (String c (s +:+ "") = String c s). now f_equal.
Qed.

Lemma split_nonempty (sep : ascii) (s : string) : split sep s ≠ [].
Proof.
  destruct s as [|c s]; [discriminate|]. cbn [split].
  destruct (Ascii.eqb c sep); [discriminate|]. now destruct (split sep s).
Qed.

(** The first field of a string whose first part holds no separator. *)
Lemma split_head_app (sep : ascii) (a b : string) :
  forallb (λ c, negb (Ascii.eqb c sep)) (list_ascii_of_string a) = true →
  List.head (split sep (a +:+ b)) = (λ p, a +:+ p) <$> List.head (split sep b).
Proof.
  induction a as [|c a IH]; intros Ha.
  - change ("" +:+ b) with b. now destruct (List.head (split sep b)).
  - cbn in Ha. apply andb_prop in Ha as [Hc Ha].
    change (String c a +:+ b) with (String c (a +:+ b)). cbn [split].
    apply negb_true_iff in Hc. rewrite Hc.
    specialize (IH Ha). pose proof (split_nonempty sep (a +:+ b)) as Hne.
    destruct (split sep (a +:+ b)) as [|p ps]; [now elim Hne|].
    cbn in IH |- *. destruct (List.head (split sep b)) as [q|]; [|discriminate].
    cbn in IH |- *. injection IH as ->. reflexivity.
Qed.

Lemma forallb_no_dot_app (a b : string) :
  forallb (λ c, negb (Ascii.eqb c ".")) (list_ascii_of_string (a +:+ b))
  = forallb (λ c, negb (Ascii.eqb c ".")) (list_ascii_of_string a)
    && forallb (λ c, negb (Ascii.eqb c ".")) (list_ascii_of_string b).
Proof.
  induction a as [|c a IH]; [reflexivity|].
  change (String c a +:+ b) with (String c (a +:+ b)). cbn. now rewrite IH, andb_assoc.
Qed.

Lemma forallb_true_Forall {A} (f : A → bool) (l : list A) :
  forallb f l = true → Forall (λ x, f x = true) l.
Proof.
  induction l as [|x l IH]; [constructor|].
  cbn. intros E. apply andb_prop in E as [Ex El]. constructor; auto.
Qed.

Lemma hms_no_dot (s : Z) :
  0 ≤ s < 86400 →
  forallb (λ c, negb (Ascii.eqb c ".")) (list_ascii_of_string (hms s)) = true.
Proof.
  intros Hs. unfold hms. rewrite !forallb_no_dot_app.
  assert (Hh : ∀ h, 0 ≤ h < 0 + 24 →
            forallb (λ c, negb (Ascii.eqb c ".")) (list_ascii_of_string (pretty h)) = true).
  { apply (Forall_seqZ _ 0 24), forallb_true_Forall. vm_compute. reflexivity. }
  assert (Hm : ∀ m, 0 ≤ m < 0 + 60 →
            forallb (λ c, negb (Ascii.eqb c ".")) (list_ascii_of_string (pad 2 m)) = true).
  { apply (Forall_seqZ _ 0 60), forallb_true_Forall. vm_compute. reflexivity. }
  rewrite Hh, !Hm; [reflexivity| | |].
  - pose proof (Z.mod_pos_bound s 60). lia.
  - pose proof (Z.mod_pos_bound (s / 60) 60). lia.
  - split; [apply Z.div_pos; lia|]. apply Z.div_lt_upper_bound; lia.
Qed.

Lemma timedelta_str_seconds (delta : Z) :
  0 ≤ delta < day_us →
  default "" (List.head (split "." (timedelta_str delta))) = hms (delta / 1000000).
Proof.
  intros Hd. unfold timedelta_str.
  rewrite (Z.div_small delta day_us), (Z.mod_small delta day_us) by exact Hd.
  cbn [Z.eqb].
  assert (Hs : 0 ≤ delta / 1000000 < 86400).
  { unfold day_us in Hd. split; [apply Z.div_pos; lia|].
    apply Z.div_lt_upper_bound; lia. }
  assert (E : pretty (delta / 1000000 / 60 / 60) +:+ ":"
              +:+ pad 2 (delta / 1000000 / 60 mod 60) +:+ ":"
              +:+ pad 2 (delta / 1000000 mod 60) = hms (delta / 1000000)).
  { unfold hms. now rewrite Z.div_div by lia. }
  rewrite E. pose proof (hms_no_dot _ Hs) as Hno.
  destruct (delta mod 1000000 =? 0).
  - rewrite <- (append_nil_r (hms (delta / 1000000))) at 1.
    rewrite (split_head_app "." _ "" Hno). cbn. now rewrite append_nil_r.
  - rewrite (split_head_app "." _ _ Hno).
    change ("." +:+ pad 6 (delta mod 1000000))
      with (String "." (pad 6 (delta mod 1000000))).
    cbn. now rewrite append_nil_r.
Qed.

Lemma seconds_left_delta (h m now : Z) :
  0 ≤ now < day_us → 0 ≤ (h * 3600 + m * 60) * 1000000 < day_us →
  let t := (h * 3600 + m * 60) * 1000000 in
  let t' := if t <? now then t + day_us else t in
  0 ≤ t' - now < day_us ∧ (t' - now) / 1000000 = seconds_left h m now.
Proof.
  intros Hnow Ht. cbn zeta. unfold seconds_left.
  destruct (Z.ltb_spec ((h * 3600 + m * 60) * 1000000) now) as [Hlt|Hge].
  - split; [lia|]. f_equal.
    replace ((h * 3600 + m * 60) * 1000000 + day_us - now)
      with ((h * 3600 + m * 60) * 1000000 - now + 1 * day_us) by lia.
    rewrite <- (Z.mod_add ((h * 3600 + m * 60) * 1000000 - now) 1 day_us) by (unfold day_us; lia).
    symmetry. apply Z.mod_small. lia.
  - split; [lia|]. f_equal. symmetry. apply Z.mod_small. lia.
Qed.

(** X14. At every time of the day the countdown lists the four scans in
    their order, each with its time and the whole seconds left until it comes
    next, printed as [H:MM:SS]; what is left is never negative and always
    less than a day. *)
Theorem next_scan_times_countdown (now : Z) :
  0 ≤ now < day_us →
  next_scan_times_et now
  = Ok [("Premarket", "08:00", hms (seconds_left 8 0 now));
        ("Open Confirm", "10:00", hms (seconds_left 10 0 now));
        ("Midday Pattern", "13:45", hms (seconds_left 13 45 now));
        ("Power Hour", "15:15", hms (seconds_left 15 15 now))]
  ∧ Forall (λ s, 0 ≤ s < 86400)
      [seconds_left 8 0 now; seconds_left 10 0 now;
       seconds_left 13 45 now; seconds_left 15 15 now].
Proof.
  intros Hnow. split.
  - unfold next_scan_times_et, targets. cbn [for_each].
    change (hour_minute "08:00") with (Ok (8, 0) : result (Z * Z)).
    change (hour_minute "10:00") with (Ok (10, 0) : result (Z * Z)).
    change (hour_minute "13:45") with (Ok (13, 45) : result (Z * Z)).
    change (hour_minute "15:15") with (Ok (15, 15) : result (Z * Z)).
    unfold mbind, result_bind. cbn [fst snd].
    destruct (seconds_left_delta 8 0 now Hnow) as [B1 E1]; [unfold day_us; lia|].
    destruct (seconds_left_delta 10 0 now Hnow) as [B2 E2]; [unfold day_us; lia|].
    destruct (seconds_left_delta 13 45 now Hnow) as [B3 E3]; [unfold day_us; lia|].
    destruct (seconds_left_delta 15 15 now Hnow) as [B4 E4]; [unfold day_us; lia|].
    cbn zeta in *.
    rewrite (timedelta_str_seconds _ B1), (timedelta_str_seconds _ B2),
      (timedelta_str_seconds _ B3), (timedelta_str_seconds _ B4).
    now rewrite E1, E2, E3, E4.
  - assert (Hb : ∀ h m, 0 ≤ seconds_left h m now < 86400).
    { intros h m. unfold seconds_left.
      pose proof (Z.mod_pos_bound ((h * 3600 + m * 60) * 1000000 - now) day_us) as Hm.
      unfold day_us in *. split; [apply Z.div_pos; lia|].
      apply Z.div_lt_upper_bound; lia. }
    repeat constructor; apply Hb.
Qed.

(** Half a second before eight o'clock. *)
Lemma next_scan_times_countdown_witness :
  next_scan_times_et 28799500000
  = Ok [("Premarket", "08:00", "0:00:00");
        ("Open Confirm", "10:00", "2:00:00");
        ("Midday Pattern", "13:45", "5:45:00");
        ("Power Hour", "15:15", "7:15:00")].
Proof.
  destruct (next_scan_times_countdown 28799500000) as [E _]; [unfold day_us; lia|].
  rewrite E. vm_compute. reflexivity.
Defined.

(** ** The ranking order and the comparison of floats *)

Lemma digits2_pos_bounds (m : positive) :
  2 ^ (Zpos (digits2_pos m) - 1) ≤ Zpos m < 2 ^ Zpos (digits2_pos m).
Proof.
  induction m as [m IH|m IH|]; cbn [digits2_pos]; [| |cbn; lia];
    rewrite Pos2Z.inj_succ;
    replace (Z.succ (Z.pos (digits2_pos m)) - 1) with (Z.succ (Z.pos (digits2_pos m) - 1))
      by lia;
    rewrite !Z.pow_succ_r by lia; lia.
Qed.

(** What validity says of a finite binary64 number. *)
Lemma valid_finite (s : bool) (m : positive) (e : Z) :
  valid_binary (S754_finite s m e) = true →
  -1074 ≤ e ∧ Zpos m < 2 ^ 53 ∧ (e = -1074 ∨ 2 ^ 52 ≤ Zpos m).
Proof.
  cbn [SpecFloat.valid_binary]. unfold bounded, canonical_mantissa, fexp, emin, prec, emax.
  intros Hv. apply andb_prop in Hv as [Hc _]. apply Z.eqb_eq in Hc.
  pose proof (digits2_pos_bounds m) as [Hlo Hhi].
  assert (Hd : Zpos (digits2_pos m) ≤ 53) by lia.
  split; [lia|]. split.
  - eapply Z.lt_le_trans; [exact Hhi|]. apply Z.pow_le_mono_r; lia.
  - destruct (Z.eq_dec e (-1074)) as [He|He]; [now left|right].
    replace (Zpos (digits2_pos m)) with 53 in Hlo by lia. exact Hlo.
Qed.

(** A normal number with the larger exponent is the larger number. *)
Lemma larger_exponent (ma mb : positive) (ea eb : Z) :
  -1074 ≤ ea → ea < eb → Zpos ma < 2 ^ 53 → 2 ^ 52 ≤ Zpos mb →
  Zpos ma * 2 ^ (ea + 1074) < Zpos mb * 2 ^ (eb + 1074).
Proof.
  intros Hea Hlt Hma Hmb.
  replace (eb + 1074) with ((ea + 1074) + (eb - ea)) by lia.
  rewrite (Z.pow_add_r 2 (ea + 1074) (eb - ea)) by lia.
  assert (Ha : 0 < 2 ^ (ea + 1074)) by (apply Z.pow_pos_nonneg; lia).
  assert (Hb : 2 ^ 1 ≤ 2 ^ (eb - ea)) by (apply Z.pow_le_mono_r; lia).
  change (2 ^ 1) with 2 in Hb. change (2 ^ 53) with (2 ^ 52 * 2) in Hma.
  assert (Hc : 0 ≤ 2 ^ 52) by (apply Z.pow_nonneg; lia).
  generalize dependent (2 ^ 52). intros c Hma Hmb Hc.
  apply (Z.lt_le_trans _ (c * 2 * 2 ^ (ea + 1074))).
  - apply Z.mul_lt_mono_pos_r; assumption.
  - rewrite (Z.mul_comm (2 ^ (ea + 1074))), Z.mul_assoc.
    apply Z.mul_le_mono_pos_r; [assumption|].
    apply Z.mul_le_mono_nonneg; lia.
Qed.

Lemma magnitude_compare (s1 s2 : bool) (m1 m2 : positive) (e1 e2 : Z) :
  valid_binary (S754_finite s1 m1 e1) = true →
  valid_binary (S754_finite s2 m2 e2) = true →
  (Zpos m1 * 2 ^ (e1 + 1074) ?= Zpos m2 * 2 ^ (e2 + 1074))
  = match e1 ?= e2 with
    | Lt => Lt
    | Gt => Gt
    | Eq => Pos.compare m1 m2
    end.
Proof.
  intros H1 H2.
  apply valid_finite in H1 as (He1 & Hm1 & Hn1), H2 as (He2 & Hm2 & Hn2).
  destruct (Z.compare_spec e1 e2) as [->|Hlt|Hgt].
  - assert (Hp : 0 < 2 ^ (e2 + 1074)) by (apply Z.pow_pos_nonneg; lia).
    change (Pos.compare m1 m2) with (Zpos m1 ?= Zpos m2).
    destruct (Z.compare_spec (Zpos m1) (Zpos m2)) as [E|E|E].
    + apply Z.compare_eq_iff. now rewrite E.
    + apply Z.compare_lt_iff. now apply Z.mul_lt_mono_pos_r.
    + apply Z.compare_gt_iff. now apply Z.mul_lt_mono_pos_r.
  - apply Z.compare_lt_iff. apply larger_exponent; lia.
  - apply Z.compare_gt_iff. apply larger_exponent; lia.
Qed.

(** On valid numbers the comparison of the specification is the comparison
    of the exact values. *)
Lemma SFcompare_value (x y : spec_float) :
  valid_binary x = true → valid_binary y = true →
  SFcompare x y
  = match sf_value x, sf_value y with
    | Some a, Some b => Some (xreal_compare a b)
    | _, _ => None
    end.
Proof.
  intros Hx Hy.
  destruct x as [sx|sx| |sx mx ex], y as [sy|sy| |sy my ey];
    try reflexivity; try (destruct sx; reflexivity); try (destruct sy; reflexivity);
    try (destruct sx, sy; reflexivity).
  - (* zero, finite *)
    pose proof (valid_finite _ _ _ Hy) as (He & _ & _).
    assert (0 < Zpos my * 2 ^ (ey + 1074))
      by (apply Z.mul_pos_pos; [lia|apply Z.pow_pos_nonneg; lia]).
    cbn [SFcompare sf_value xreal_compare]. f_equal.
    destruct sy; symmetry; [apply Z.compare_gt_iff|apply Z.compare_lt_iff]; lia.
  - (* finite, zero *)
    pose proof (valid_finite _ _ _ Hx) as (He & _ & _).
    assert (0 < Zpos mx * 2 ^ (ex + 1074))
      by (apply Z.mul_pos_pos; [lia|apply Z.pow_pos_nonneg; lia]).
    cbn [SFcompare sf_value xreal_compare]. f_equal.
    destruct sx; symmetry; [apply Z.compare_lt_iff|apply Z.compare_gt_iff]; lia.
  - (* finite, finite *)
    pose proof (valid_finite _ _ _ Hx) as (Hex & _ & _).
    pose proof (valid_finite _ _ _ Hy) as (Hey & _ & _).
    assert (0 < Zpos mx * 2 ^ (ex + 1074))
      by (apply Z.mul_pos_pos; [lia|apply Z.pow_pos_nonneg; lia]).
    assert (0 < Zpos my * 2 ^ (ey + 1074))
      by (apply Z.mul_pos_pos; [lia|apply Z.pow_pos_nonneg; lia]).
    cbn [SFcompare sf_value xreal_compare]. f_equal.
    destruct sx, sy.
    + rewrite Z.compare_opp, (magnitude_compare _ _ _ _ _ _ Hy Hx).
      rewrite (Z.compare_antisym ex ey), (Pos.compare_antisym mx my).
      destruct (ex ?= ey); reflexivity.
    + symmetry. apply Z.compare_lt_iff. lia.
    + symmetry. apply Z.compare_gt_iff. lia.
    + rewrite (magnitude_compare _ _ _ _ _ _ Hx Hy). reflexivity.
Qed.

Lemma float_compare_value (f g : float) :
  SFcompare (Prim2SF f) (Prim2SF g)
  = match float_value f, float_value g with
    | Some a, Some b => Some (xreal_compare a b)
    | _, _ => None
    end.
Proof. apply SFcompare_value; apply Prim2SF_valid. Qed.

Lemma is_nan_value (f : float) :
  is_nan f = match float_value f with None => true | Some _ => false end.
Proof.
  unfold is_nan. rewrite FloatAxioms.eqb_spec. unfold SFeqb. rewrite float_compare_value.
  destruct (float_value f) as [a|]; [rewrite xreal_compare_refl|]; reflexivity.
Qed.

(** X15. On float cells the ranking order is the order of the floats: the
    larger float is placed first, two floats that compare equal (such as 0.0
    and -0.0) tie, and NaN is placed after every other float. *)
Theorem ranking_order_on_floats (f g : float) :
  key_compare (cell_value (PyFloat f)) (cell_value (PyFloat g))
  = if is_nan f then (if is_nan g then Eq else Gt)
    else if is_nan g then Lt
    else if (g <? f)%float then Lt
    else if (f <? g)%float then Gt
    else Eq.
Proof.
  cbn [cell_value]. rewrite !is_nan_value.
  rewrite !FloatAxioms.ltb_spec. unfold SFltb. rewrite !float_compare_value.
  destruct (float_value f) as [a|], (float_value g) as [b|]; cbn [key_compare];
    try reflexivity.
  rewrite (xreal_compare_antisym b a).
  destruct (xreal_compare b a); reflexivity.
Qed.

(** ** [human_int] below the thresholds *)

Lemma float_lt_not_le (f z c : float) :
  (f <? z)%float = true → (z <? c)%float = true → (c <=? f)%float = false.
Proof.
  rewrite !FloatAxioms.ltb_spec, FloatAxioms.leb_spec. unfold SFltb, SFleb.
  rewrite !float_compare_value.
  destruct (float_value f) as [a|], (float_value z) as [b|], (float_value c) as [d|];
    try discriminate; try reflexivity.
  destruct (xreal_compare a b) eqn:Eab; try discriminate.
  destruct (xreal_compare b d) eqn:Ebd; try discriminate.
  intros _ _. rewrite (xreal_compare_antisym a d), (xreal_compare_trans a b d Eab Ebd).
  reflexivity.
Qed.

Lemma float_nan_not_le (f c : float) : is_nan f = true → (c <=? f)%float = false.
Proof.
  rewrite is_nan_value, FloatAxioms.leb_spec. unfold SFleb. rewrite float_compare_value.
  destruct (float_value f); [discriminate|]. now destruct (float_value c).
Qed.

Section human_int_small.
Context `{Runtime}.

(** X16. A negative float gets no suffix, however large it is: [human_int]
    prints its integer part (and [-inf] for the negative infinity); NaN, the
    null of a numeric column, is printed as [nan]. *)
Theorem human_int_negative_or_nan (f : float) :
  (f <? 0)%float = true ∨ is_nan f = true →
  human_int (PyFloat f)
  = match float_to_int f with
    | Ok i => pretty i
    | Raise _ => float_repr f
    end.
Proof.
  intros Hf. unfold human_int. cbn [py_float py_str].
  assert (Hm : (1000000 <=? f)%float = false).
  { destruct Hf as [Hneg|Hnan]; [|now apply float_nan_not_le].
    now apply (float_lt_not_le f 0 1000000). }
  assert (Hk : (1000 <=? f)%float = false).
  { destruct Hf as [Hneg|Hnan]; [|now apply float_nan_not_le].
    now apply (float_lt_not_le f 0 1000). }
  now rewrite Hm, Hk.
Qed.

End human_int_small.

Lemma human_int_negative_or_nan_witness :
  human_int (H := digits_runtime) (PyFloat (-5000000.5)) = "-5000000"
  ∧ human_int (H := digits_runtime) (PyFloat nan) = "nan".
Proof.
  split.
  - rewrite (human_int_negative_or_nan (H := digits_runtime)); [|left]; reflexivity.
  - rewrite (human_int_negative_or_nan (H := digits_runtime)); [|right]; reflexivity.
Defined.

(** ** The keys that matter *)

Lemma make_row_reads (scan_tag : string) (d d' : gmap string pyval) :
  (∀ k, k ∈ read_keys → d !! k = d' !! k) → make_row scan_tag d = make_row scan_tag d'.
Proof.
  intros Hk.
  assert (Hget : ∀ k, k ∈ read_keys → get d k = get d' k).
  { intros k Hin. unfold get. now rewrite (Hk k Hin). }
  unfold make_row.
  rewrite !Hget; [reflexivity|..]; apply list_elem_of_In; cbn; tauto.
Qed.

Section keys.
Context `{Runtime}.

(** X17. [to_df] reads seventeen keys of a record and no other: two lists of
    records that agree, record by record, on these keys give the same frame.
    A raw [momo] or an [options] entry, for instance, changes nothing. *)
Theorem to_df_reads_only_its_keys (ds ds' : list (gmap string pyval)) (scan_tag : string) :
  Forall2 (λ d d' : gmap string pyval, ∀ k, k ∈ read_keys → d !! k = d' !! k) ds ds' →
  to_df (PyList (PyDict <$> ds)) scan_tag = to_df (PyList (PyDict <$> ds')) scan_tag.
Proof.
  intros Hall. rewrite !to_df_records. do 3 f_equal.
  induction Hall as [|d d' ds ds' Hd Hall IH]; [reflexivity|].
  cbn [fmap list_fmap]. f_equal; [now apply make_row_reads|exact IH].
Qed.

End keys.

Lemma to_df_reads_only_its_keys_witness :
  to_df (H := digits_runtime)
    (PyList (PyDict <$> [ {[ "symbol" := PyStr "ABC"; "score" := PyInt 5;
                             "momo" := PyFloat 3.5; "options" := PyList [] ]} ])) "AM"
  = to_df (H := digits_runtime)
      (PyList (PyDict <$> [ {[ "symbol" := PyStr "ABC"; "score" := PyInt 5 ]} ])) "AM".
Proof.
  apply (to_df_reads_only_its_keys (H := digits_runtime)).
  constructor; [|constructor].
  intros k Hk. unfold read_keys in Hk.
  repeat (apply elem_of_cons in Hk as [->|Hk]; [vm_compute; reflexivity|]).
  now apply elem_of_nil in Hk.
Defined.
